(** * filestore-migrator: the migration engine of [methods.go] and the
      GridFS provider of [store/gridfs.go], embedded and verified.

    Layout:
    - [rocketchat]  the catalog record type used by the engine;
    - [store]       the provider interface and [GridFSProvider];
    - [strconv]     [Atoi], as the engine uses it on MAX_CONCURRENCY;
    - [migrator]    [getFiles], [getObjectPath], [fixFileForUpload], the
                    worker body of [MigrateStore], [DownloadAll], [UploadAll];
    - [sched]       the goroutines of [MigrateStore] as a transition system
                    (scheduling loop, error listener, workers, two unbuffered
                    channels);
    - theorems. *)

From Stdlib Require Import String Ascii List ZArith Bool Lia.
Import ListNotations.
Open Scope string_scope.

(** ** Go errors *)

(** An [error] value.  [ErrNotFound] is the sentinel [store.ErrNotFound],
    [ErrNoDocuments] the sentinel [mongo.ErrNoDocuments]; [ErrNew msg] is
    [errors.New(msg)]; [ErrNum s] is the [*strconv.NumError] of [Atoi] on [s];
    [ErrOther tag] is any other failure of a collaborator. *)
Inductive error : Type :=
| ErrNotFound
| ErrNoDocuments
| ErrNew (msg : string)
| ErrNum (input : string)
| ErrOther (tag : string).

(** [err == store.ErrNotFound] *)
Definition isErrNotFound (e : error) : bool :=
  match e with ErrNotFound => true | _ => false end.

(** [err == mongo.ErrNoDocuments] *)
Definition isErrNoDocuments (e : error) : bool :=
  match e with ErrNoDocuments => true | _ => false end.

(** ** strings *)

Module strings.

Definition lowerByte (c : ascii) : ascii :=
  let n := nat_of_ascii c in
  if (65 <=? n)%nat && (n <=? 90)%nat then ascii_of_nat (n + 32) else c.

(** [strings.ToLower] on ASCII text (the engine only applies it to the
    store name). *)
Fixpoint ToLower (s : string) : string :=
  match s with
  | EmptyString => EmptyString
  | String c r => String (lowerByte c) (ToLower r)
  end.

End strings.

(** ** strconv *)

Module strconv.

Definition digitVal (c : ascii) : option Z :=
  let n := Z.of_nat (nat_of_ascii c) in
  if (48 <=? n)%Z && (n <=? 57)%Z then Some (n - 48)%Z else None.

Fixpoint digits (acc : Z) (s : string) : option Z :=
  match s with
  | EmptyString => Some acc
  | String c r =>
      match digitVal c with
      | Some d => digits (acc * 10 + d)%Z r
      | None => None
      end
  end.

Definition maxInt : Z := (2 ^ 63 - 1)%Z.
Definition minInt : Z := (- 2 ^ 63)%Z.

(** [strconv.Atoi]: an optional sign, then one or more decimal digits, the
    value within the range of a 64-bit [int]; anything else is an error. *)
Definition Atoi (s : string) : error + Z :=
  let '(neg, body) :=
    match s with
    | String "-"%char r => (true, r)
    | String "+"%char r => (false, r)
    | _ => (false, s)
    end in
  match body with
  | EmptyString => inl (ErrNum s)
  | _ =>
      match digits 0 body with
      | None => inl (ErrNum s)
      | Some n =>
          let v := if neg then (- n)%Z else n in
          if (minInt <=? v)%Z && (v <=? maxInt)%Z then inr v
          else inl (ErrNum s)
      end
  end.

End strconv.

(** ** rocketchat: the catalog record *)

Module rocketchat.

(** Modelled from the spec: the record type [rocketchat.File] and its two
    backend sub-documents are declared outside the files at hand; the fields
    are those the engine reads and writes ([file.ID], [file.Name], [file.Type],
    [file.Rid], [file.UserID], [file.Complete], [file.Store], [file.URL],
    [file.Path], [file.AmazonS3], [file.GoogleStorage]) and the [uploadedAt]
    key of the candidate query. *)
Record AmazonS3 : Type := mkAmazonS3 { s3Path : string }.
Record GoogleStorage : Type := mkGoogleStorage { gcsPath : string }.

Record File : Type := mkFile {
  ID : string;
  Name : string;
  Type_ : string;
  Rid : string;
  UserID : string;
  Complete : bool;
  UploadedAt : Z;
  Store : string;
  URL : string;
  Path : string;
  AmazonS3_ : AmazonS3;
  GoogleStorage_ : GoogleStorage
}.

(** The zero values [rocketchat.AmazonS3{}] and [rocketchat.GoogleStorage{}]. *)
Definition emptyAmazonS3 : AmazonS3 := mkAmazonS3 "".
Definition emptyGoogleStorage : GoogleStorage := mkGoogleStorage "".

Definition setRid (f : File) (v : string) : File :=
  mkFile (ID f) (Name f) (Type_ f) v (UserID f) (Complete f) (UploadedAt f)
         (Store f) (URL f) (Path f) (AmazonS3_ f) (GoogleStorage_ f).

Definition setUserID (f : File) (v : string) : File :=
  mkFile (ID f) (Name f) (Type_ f) (Rid f) v (Complete f) (UploadedAt f)
         (Store f) (URL f) (Path f) (AmazonS3_ f) (GoogleStorage_ f).

Definition setAmazonS3 (f : File) (v : AmazonS3) : File :=
  mkFile (ID f) (Name f) (Type_ f) (Rid f) (UserID f) (Complete f)
         (UploadedAt f) (Store f) (URL f) (Path f) v (GoogleStorage_ f).

Definition setGoogleStorage (f : File) (v : GoogleStorage) : File :=
  mkFile (ID f) (Name f) (Type_ f) (Rid f) (UserID f) (Complete f)
         (UploadedAt f) (Store f) (URL f) (Path f) (AmazonS3_ f) v.

Definition setLocation (f : File) (url path st : string) : File :=
  mkFile (ID f) (Name f) (Type_ f) (Rid f) (UserID f) (Complete f)
         (UploadedAt f) st url path (AmazonS3_ f) (GoogleStorage_ f).

End rocketchat.

(** ** store: providers *)

Module store.

Import rocketchat.

(** Modelled from the spec: the [Provider] interface is declared outside the
    files at hand; the methods are those of the storage-provider contract that
    the engine calls ([StoreType], [Download], [Upload]), with the signatures
    [GridFSProvider] gives them.  A value of the interface is the record of
    its methods; [Download] returns the local path and the error, [Upload] the
    error. *)
Record Provider : Type := mkProvider {
  StoreType : string;
  Download : string -> File -> string * option error;
  Upload : string -> string -> string -> option error
}.

Record GridFSProvider : Type := mkGridFS {
  Database : string;
  TempFileLocation : string
}.

Module GridFS.

Definition StoreType (g : GridFSProvider) : string := "GridFS".

Definition SetTempDirectory (g : GridFSProvider) (dir : string)
  : GridFSProvider :=
  mkGridFS (Database g) dir.

(** The body is [return "", nil]; the rest of the source function is a
    comment. *)
Definition Download (g : GridFSProvider) (fileCollection : string)
  (file : File) : string * option error :=
  ("", None).

Definition Upload (g : GridFSProvider) (path filePath contentType : string)
  : option error :=
  None.

Definition Delete (g : GridFSProvider) (file : File)
  (permanentelyDelete : bool) : option error :=
  Some (ErrNew "delete object method not implemented").

End GridFS.

(** A [*GridFSProvider] used as a [Provider]. *)
Definition gridfs (g : GridFSProvider) : Provider :=
  mkProvider (GridFS.StoreType g) (GridFS.Download g) (GridFS.Upload g).

End store.

(** ** migrator: the engine *)

Module migrator.

Import rocketchat store.

(** The handle [connectDB] returns ([connectDB] itself is declared outside
    the files at hand and is a field of [Env] below). *)
Record Session : Type := mkSession { dialled : string }.

(** Modelled from the spec: the [Migrate] struct is declared outside the
    files at hand; the fields are those [methods.go] reads and writes (the run
    configuration, and the namespace, collection name and session [getFiles]
    resolves).  A nil provider binding is [None]; [fileOffset] is a
    [time.Time] counted from the zero time, so [IsZero] is [=? 0]. *)
Record Migrate : Type := mkMigrate {
  debug : bool;
  fileDelay : Z;
  storeName : string;
  sourceStore : option Provider;
  destinationStore : option Provider;
  tempFileLocation : string;
  connectionString : string;
  databaseName : string;
  fileOffset : Z;
  skipErrors : bool;
  uniqueID : string;
  fileCollectionName : string;
  session : option Session
}.

Definition setFileCollectionName (m : Migrate) (v : string) : Migrate :=
  mkMigrate (debug m) (fileDelay m) (storeName m) (sourceStore m)
    (destinationStore m) (tempFileLocation m) (connectionString m)
    (databaseName m) (fileOffset m) (skipErrors m) (uniqueID m) v (session m).

Definition setSession (m : Migrate) (v : Session) : Migrate :=
  mkMigrate (debug m) (fileDelay m) (storeName m) (sourceStore m)
    (destinationStore m) (tempFileLocation m) (connectionString m)
    (databaseName m) (fileOffset m) (skipErrors m) (uniqueID m)
    (fileCollectionName m) (Some v).

Definition setUniqueID (m : Migrate) (v : string) : Migrate :=
  mkMigrate (debug m) (fileDelay m) (storeName m) (sourceStore m)
    (destinationStore m) (tempFileLocation m) (connectionString m)
    (databaseName m) (fileOffset m) (skipErrors m) v
    (fileCollectionName m) (session m).

(** The candidate query [bson.M{"store": ..., "uploadedAt": {"$gte": ...}}]. *)
Record Query : Type := mkQuery {
  q_store : string;
  q_uploadedAt_gte : option Z
}.

Definition matches (q : Query) (f : File) : bool :=
  String.eqb (Store f) (q_store q) &&
  match q_uploadedAt_gte q with
  | None => true
  | Some t => (t <=? UploadedAt f)%Z
  end.

(** The catalog: the settings document [uniqueID] (absent: [None]) and the two
    file collections. *)
Record MongoDB : Type := mkMongoDB {
  setting_uniqueID : option string;
  rocketchat_uploads : list File;
  rocketchat_avatars : list File
}.

Definition Collection (d : MongoDB) (name : string) : list File :=
  if String.eqb name "rocketchat_uploads" then rocketchat_uploads d
  else if String.eqb name "rocketchat_avatars" then rocketchat_avatars d
  else [].

Definition withCollection (d : MongoDB) (name : string) (l : list File)
  : MongoDB :=
  if String.eqb name "rocketchat_uploads"
  then mkMongoDB (setting_uniqueID d) l (rocketchat_avatars d)
  else if String.eqb name "rocketchat_avatars"
  then mkMongoDB (setting_uniqueID d) (rocketchat_uploads d) l
  else d.

(** [UpdateOne] with filter [{_id: id}] and [$set: file]: the first document
    of that id takes the fields of [file]; no document of that id, no change. *)
Fixpoint replaceByID (id : string) (file : File) (l : list File) : list File :=
  match l with
  | [] => []
  | g :: r =>
      if String.eqb (ID g) id then file :: r
      else g :: replaceByID id file r
  end.

(** What the engine does to its collaborators, in order. *)
Inductive event : Type :=
| EvConnect (conn : string)
| EvFindOne (coll id : string)
| EvFind (coll : string) (q : Query)
| EvStat (path : string)
| EvDownload (coll id : string)
| EvUpload (objectPath localPath contentType : string)
| EvUpdateOne (coll id : string) (set : File) (unset : string).

(** A transfer is a fetch, a push or a catalog update. *)
Definition isTransfer (e : event) : bool :=
  match e with
  | EvDownload _ _ | EvUpload _ _ _ | EvUpdateOne _ _ _ _ => true
  | _ => false
  end.

(** The collaborators' answers the engine branches on: the process
    environment, the dial, the failures of [Find], [cursor.All] and
    [UpdateOne], and [os.Stat]. *)
Record Env : Type := mkEnv {
  MAX_CONCURRENCY : option string;
  connectDB : string -> error + Session;
  findError : option error;
  cursorError : option error;
  updateError : File -> option error;
  statExists : string -> bool
}.

(** The mutable part: the [Migrate] receiver, the catalog, and the trace. *)
Record World : Type := mkWorld {
  mig : Migrate;
  db : MongoDB;
  trace : list event
}.

(** A Go call either returns a value, returns an error, or panics. *)
Inductive result (A : Type) : Type :=
| Ok (a : A)
| Err (e : error)
| Panic (v : string).
Arguments Ok {A} a.
Arguments Err {A} e.
Arguments Panic {A} v.

Definition Run (A : Type) : Type := World -> result A * World.

Definition ret {A} (a : A) : Run A := fun w => (Ok a, w).
Definition fail {A} (e : error) : Run A := fun w => (Err e, w).
Definition panic {A} (v : string) : Run A := fun w => (Panic v, w).
Definition bind {A B} (c : Run A) (k : A -> Run B) : Run B :=
  fun w =>
    match c w with
    | (Ok a, w') => k a w'
    | (Err e, w') => (Err e, w')
    | (Panic v, w') => (Panic v, w')
    end.

Notation "x <- c ;; k" := (bind c (fun x => k))
  (at level 61, c at next level, right associativity).
Notation "c ;;; k" := (bind c (fun _ => k))
  (at level 61, right associativity).

Definition getM : Run Migrate := fun w => (Ok (mig w), w).
Definition modM (f : Migrate -> Migrate) : Run unit :=
  fun w => (Ok tt, mkWorld (f (mig w)) (db w) (trace w)).
Definition getDB : Run MongoDB := fun w => (Ok (db w), w).
Definition putDB (d : MongoDB) : Run unit :=
  fun w => (Ok tt, mkWorld (mig w) d (trace w)).
Definition emit (e : event) : Run unit :=
  fun w => (Ok tt, mkWorld (mig w) (db w) (trace w ++ [e])).

(** Dereferencing a provider binding: a method call on a nil interface
    panics. *)
Definition deref (p : option Provider) : Run Provider :=
  match p with
  | Some s => ret s
  | None => panic "invalid memory address or nil pointer dereference"
  end.

Definition liftErr (o : option error) : Run unit :=
  match o with
  | Some e => fail e
  | None => ret tt
  end.

Section WithEnv.

Variable env : Env.

(** [getFiles] *)
Definition getFiles : Run (list File) :=
  m <- getM ;;
  if String.eqb (storeName m) "" then fail (ErrNew "no store Name") else
  fileCollection <-
    (if String.eqb (storeName m) "Uploads" then ret "rocketchat_uploads"
     else if String.eqb (storeName m) "Avatars" then ret "rocketchat_avatars"
     else fail (ErrNew "Invalid store Name")) ;;
  modM (fun m => setFileCollectionName m fileCollection) ;;;
  emit (EvConnect (connectionString m)) ;;;
  sess <- (match connectDB env (connectionString m) with
           | inl e => fail e
           | inr s => ret s
           end) ;;
  modM (fun m => setSession m sess) ;;;
  emit (EvFindOne "rocketchat_settings" "uniqueID") ;;;
  d <- getDB ;;
  uid <- (match setting_uniqueID d with
          | None => fail ErrNoDocuments
          | Some v => ret v
          end) ;;
  modM (fun m => setUniqueID m uid) ;;;
  src <- deref (sourceStore m) ;;
  let query :=
    mkQuery (StoreType src ++ ":" ++ storeName m)
            (if (fileOffset m =? 0)%Z then None else Some (fileOffset m)) in
  emit (EvFind fileCollection query) ;;;
  match findError env with
  | Some e =>
      if isErrNoDocuments e then fail (ErrNew "No files found") else fail e
  | None =>
      liftErr (cursorError env) ;;;
      ret (filter (matches query) (Collection d fileCollection))
  end.

(** [getObjectPath] *)
Definition getObjectPath (file : File) : Run string :=
  m <- getM ;;
  let objectPath :=
    if String.eqb (storeName m) "Uploads" then
      uniqueID m ++ "/" ++ strings.ToLower (storeName m) ++ "/" ++ Rid file
        ++ "/" ++ UserID file ++ "/" ++ ID file
    else if String.eqb (storeName m) "Avatars" then
      uniqueID m ++ "/" ++ strings.ToLower (storeName m) ++ "/" ++ UserID file
    else "" in
  dst <- deref (destinationStore m) ;;
  if String.eqb (StoreType dst) "FileSystem" then ret (ID file)
  else ret objectPath.

(** [fixFileForUpload]: the mutated record and the name to [$unset]. *)
Definition fixFileForUpload (file : File) (objectPath : string)
  : Run (File * string) :=
  m <- getM ;;
  dst <- deref (destinationStore m) ;;
  let '(file, unset) :=
    if String.eqb (StoreType dst) "AmazonS3" then
      (setGoogleStorage (setAmazonS3 file (mkAmazonS3 objectPath))
         emptyGoogleStorage, "GoogleStorage")
    else if String.eqb (StoreType dst) "GoogleCloudStorage" then
      (setAmazonS3 (setGoogleStorage file (mkGoogleStorage objectPath))
         emptyAmazonS3, "AmazonS3")
    else (file, "") in
  let ufsPath :=
    "/ufs/" ++ StoreType dst ++ ":" ++ storeName m ++ "/" ++ ID file ++ "/"
      ++ Name file in
  ret (setLocation file ufsPath ufsPath (StoreType dst ++ ":" ++ storeName m),
       unset).

(** [collection.UpdateOne(ctx, bson.M{"_id": file.ID}, update)] on the
    collection [m.fileCollectionName]. *)
Definition UpdateOne (file : File) (unset : string) : Run unit :=
  m <- getM ;;
  emit (EvUpdateOne (fileCollectionName m) (ID file) file unset) ;;;
  match updateError env file with
  | Some e => fail e
  | None =>
      d <- getDB ;;
      putDB (withCollection d (fileCollectionName m)
               (replaceByID (ID file) file
                  (Collection d (fileCollectionName m))))
  end.

(** The two defaulting statements of the [MigrateStore] worker:
    [if file.Rid == "" && m.storeName == "Uploads" { file.Rid = "undefined" }]
    and [if file.UserID == "" { file.UserID = "undefined" }]. *)
Definition withDefaults (m : Migrate) (file : File) : File :=
  let file :=
    if String.eqb (Rid file) "" && String.eqb (storeName m) "Uploads"
    then setRid file "undefined" else file in
  if String.eqb (UserID file) "" then setUserID file "undefined" else file.

(** The worker goroutine of [MigrateStore] for one record.  Returning [Ok tt]
    is the send [doneChan <- true]; returning [Err e] is the send
    [errChan <- err]. *)
Definition migrateOne (file : File) : Run unit :=
  m <- getM ;;
  src <- deref (sourceStore m) ;;
  if negb (Complete file) then ret tt else
  emit (EvDownload (fileCollectionName m) (ID file)) ;;;
  let '(downloadedPath, err) := Download src (fileCollectionName m) file in
  match err with
  | Some e =>
      if isErrNotFound e || skipErrors m then ret tt else fail e
  | None =>
      let file := withDefaults m file in
      objectPath <- getObjectPath file ;;
      dst <- deref (destinationStore m) ;;
      emit (EvUpload objectPath downloadedPath (Type_ file)) ;;;
      liftErr (Upload dst objectPath downloadedPath (Type_ file)) ;;;
      fu <- fixFileForUpload file objectPath ;;
      UpdateOne (fst fu) (snd fu)
  end.

(** The worker goroutine of [DownloadAll] for one record, with the same
    reading of [Ok] and [Err]. *)
Definition downloadOne (file : File) : Run unit :=
  m <- getM ;;
  src <- deref (sourceStore m) ;;
  if negb (Complete file) then ret tt else
  emit (EvDownload (fileCollectionName m) (ID file)) ;;;
  match snd (Download src (fileCollectionName m) file) with
  | Some e =>
      if isErrNotFound e || skipErrors m then ret tt else fail e
  | None => ret tt
  end.

(** The loop body of [UploadAll] for one record: [Ok tt] is reaching the end
    of the body or a [continue], [Err e] is [return err]. *)
Definition uploadOne (filesRoot : string) (file : File) : Run unit :=
  m <- getM ;;
  let fileLocation := filesRoot ++ "/" ++ ID file in
  emit (EvStat fileLocation) ;;;
  if negb (statExists env fileLocation) then ret tt else
  dst <- deref (destinationStore m) ;;
  if negb (Complete file) then ret tt else
  objectPath <- getObjectPath file ;;
  emit (EvUpload objectPath fileLocation (Type_ file)) ;;;
  liftErr (Upload dst objectPath fileLocation (Type_ file)) ;;;
  fu <- fixFileForUpload file objectPath ;;
  UpdateOne (fst fu) (snd fu).

Fixpoint forEach (body : File -> Run unit) (files : list File) : Run unit :=
  match files with
  | [] => ret tt
  | f :: r => body f ;;; forEach body r
  end.

(** [UploadAll] *)
Definition UploadAll (filesRoot : string) : Run unit :=
  m <- getM ;;
  match destinationStore m with
  | None =>
      fail (ErrNew "For UploadAll must have a destination store provided")
  | Some _ =>
      files <- getFiles ;;
      let filesRoot := filesRoot ++ "/" ++ strings.ToLower (storeName m) in
      forEach (uploadOne filesRoot) files
  end.

(** [MigrateStore] up to the creation of the channels: the binding check,
    [getFiles], then the concurrency limit from the environment. *)
Definition MigrateStore_setup : Run (list File * Z) :=
  m <- getM ;;
  match sourceStore m, destinationStore m with
  | Some _, Some _ =>
      files <- getFiles ;;
      maxConcurrency <-
        (match MAX_CONCURRENCY env with
         | None => ret 1%Z
         | Some v =>
             match strconv.Atoi v with
             | inl e => fail e
             | inr n => ret n
             end
         end) ;;
      ret (files, maxConcurrency)
  | _, _ =>
      fail (ErrNew
        "For MigrateStore both a source and destionation store must be provided")
  end.

End WithEnv.

End migrator.

(** ** sched: the goroutines of [MigrateStore] *)

Module sched.

Import rocketchat store migrator.

(** Where the goroutine running [MigrateStore] stands: at the head of the
    [range] loop with index [i]; blocked in the [<-oneDone] of the loop; about
    to run the [go] statement of iteration [i]; blocked in the [<-oneDone]
    after the loop; blocked in [errChan <- nil]; returned. *)
Inductive mainPC : Type :=
| AtLoop (i : nat)
| AtWait (i : nat)
| AtSpawn (i : nat)
| AtDrain
| AtRelease
| Returned (r : option error).

(** The goroutine [e := <-c; if e == nil { return }; panic(e)]. *)
Inductive listener : Type :=
| Listening
| Exited
| Panicked (e : error).

(** A worker goroutine: launched and working on its record; blocked in
    [doneChan <- true]; blocked in [errChan <- err]; panicked; returned after
    its completion signal was received; returned after its error was
    received. *)
Inductive worker : Type :=
| Running (file : File)
| SendingDone
| SendingErr (e : error)
| Crashed (v : string)
| Finished
| Reported.

Record state : Type := mkState {
  pc : mainPC;
  lis : listener;
  workers : list worker;
  world : World
}.

(** One move of the program.  Both channels are unbuffered, so a send and its
    receive are one move: [RecvDone j] is worker [j]'s [doneChan <- true]
    meeting a [<-oneDone]; [Report j] is worker [j]'s [errChan <- err] meeting
    the listener; [Release] is [errChan <- nil] meeting the listener. *)
Inductive action : Type :=
| Main
| RecvDone (j : nat)
| Release
| Work (j : nat)
| Report (j : nat).

Fixpoint update (j : nat) (x : worker) (l : list worker) : list worker :=
  match l, j with
  | [], _ => []
  | _ :: r, O => x :: r
  | y :: r, S j' => y :: update j' x r
  end.

Definition isRunning (x : worker) : bool :=
  match x with Running _ => true | _ => false end.
Definition isCrashed (x : worker) : bool :=
  match x with Crashed _ => true | _ => false end.
Definition isFinished (x : worker) : bool :=
  match x with Finished => true | _ => false end.

(** A panic in any goroutine ends the process. *)
Definition dead (s : state) : bool :=
  match lis s with Panicked _ => true | _ => false end
  || existsb isCrashed (workers s).

(** The transfers in flight: workers launched that have not yet reached
    their final channel send. *)
Definition inFlight (s : state) : nat :=
  length (filter isRunning (workers s)).

Definition launched (s : state) : nat := length (workers s).

Definition completed (s : state) : nat :=
  length (filter (fun x => negb (isRunning x)) (workers s)).

Section Machine.

Variable env : Env.
Variable files : list File.
Variable maxConcurrency : Z.

Definition afterWork (r : result unit) : worker :=
  match r with
  | Ok _ => SendingDone
  | Err e => SendingErr e
  | Panic v => Crashed v
  end.

Definition step (a : action) (s : state) : option state :=
  if dead s then None else
  match a with
  | Main =>
      match pc s with
      | AtLoop i =>
          if (i <? length files)%nat then
            if (Z.of_nat i =? maxConcurrency)%Z
            then Some (mkState (AtWait i) (lis s) (workers s) (world s))
            else Some (mkState (AtSpawn i) (lis s) (workers s) (world s))
          else Some (mkState AtDrain (lis s) (workers s) (world s))
      | AtSpawn i =>
          match nth_error files i with
          | Some f =>
              Some (mkState (AtLoop (S i)) (lis s)
                      (workers s ++ [Running f]) (world s))
          | None => None
          end
      | _ => None
      end
  | RecvDone j =>
      match nth_error (workers s) j with
      | Some SendingDone =>
          match pc s with
          | AtWait i =>
              Some (mkState (AtSpawn i) (lis s)
                      (update j Finished (workers s)) (world s))
          | AtDrain =>
              Some (mkState AtRelease (lis s)
                      (update j Finished (workers s)) (world s))
          | _ => None
          end
      | _ => None
      end
  | Release =>
      match pc s, lis s with
      | AtRelease, Listening =>
          Some (mkState (Returned None) Exited (workers s) (world s))
      | _, _ => None
      end
  | Work j =>
      match nth_error (workers s) j with
      | Some (Running f) =>
          let '(r, w') := migrateOne env f (world s) in
          Some (mkState (pc s) (lis s)
                  (update j (afterWork r) (workers s)) w')
      | _ => None
      end
  | Report j =>
      match nth_error (workers s) j, lis s with
      | Some (SendingErr e), Listening =>
          Some (mkState (pc s) (Panicked e)
                  (update j Reported (workers s)) (world s))
      | _, _ => None
      end
  end.

(** A schedule is a list of moves; [run] is [None] when one of them is not
    enabled. *)
Fixpoint run (sch : list action) (s : state) : option state :=
  match sch with
  | [] => Some s
  | a :: r =>
      match step a s with
      | Some s' => run r s'
      | None => None
      end
  end.

(** The state after [errChan], [oneDone] and the listener are created. *)
Definition init (w : World) : state := mkState (AtLoop 0) Listening [] w.

End Machine.

End sched.

(** * Specification-side definitions and sample data *)

Import rocketchat store migrator sched.

(** What "replaced by the literal undefined when empty" means. *)
Definition orUndefined (s : string) : string :=
  if String.eqb s "" then "undefined" else s.

(** Sample providers, records, configurations and catalogs, used to run the
    engine on concrete inputs. *)
Module sample.

(** An object store that has every object but ["gone"] (absent) and ["bad"]
    (the fetch fails otherwise), and accepts every push. *)
Definition fetch (coll : string) (f : File) : string * option error :=
  if String.eqb (ID f) "gone" then ("", Some ErrNotFound)
  else if String.eqb (ID f) "bad" then ("", Some (ErrOther "timeout"))
  else ("/tmp/uploads/" ++ ID f, None).

Definition push (objectPath localPath contentType : string) : option error :=
  None.

Definition s3 : Provider := mkProvider "AmazonS3" fetch push.
Definition gcs : Provider := mkProvider "GoogleCloudStorage" fetch push.
Definition fs : Provider := mkProvider "FileSystem" fetch push.

Definition upload (id rid uid : string) (complete : bool) : File :=
  mkFile id (id ++ ".png") "image/png" rid uid complete 10
    "AmazonS3:Uploads"
    ("/ufs/AmazonS3:Uploads/" ++ id ++ "/" ++ id ++ ".png")
    ("/ufs/AmazonS3:Uploads/" ++ id ++ "/" ++ id ++ ".png")
    (mkAmazonS3 ("NS/uploads/" ++ rid ++ "/" ++ uid ++ "/" ++ id))
    emptyGoogleStorage.

Definition fa : File := upload "a" "room1" "user1" true.
Definition fb : File := upload "b" "" "" true.
Definition fc : File := upload "c" "room2" "user1" true.
Definition fgone : File := upload "gone" "room1" "user1" true.
Definition fbad : File := upload "bad" "room1" "user1" true.
Definition fpart : File := upload "part" "room1" "user1" false.

Definition config (src dst : option Provider) (skip : bool) : Migrate :=
  mkMigrate false 0 "Uploads" src dst "/tmp" "mongodb://localhost"
    "rocketchat" 0 skip "" "" None.

Definition catalog (uploads : list File) : MongoDB :=
  mkMongoDB (Some "NS") uploads [].

Definition environ (maxc : option string) : Env :=
  mkEnv maxc (fun c => inr (mkSession c)) None None (fun _ => None)
    (fun _ => true).

Definition start (src dst : option Provider) (skip : bool)
  (uploads : list File) : World :=
  mkWorld (config src dst skip) (catalog uploads) [].

(** The world as [getFiles] leaves it: collection name, session and namespace
    resolved. *)
Definition ready (src dst : option Provider) (skip : bool)
  (uploads : list File) : World :=
  mkWorld
    (setUniqueID
       (setSession
          (setFileCollectionName (config src dst skip) "rocketchat_uploads")
          (mkSession "mongodb://localhost")) "NS")
    (catalog uploads) [].

(** [fa] as the engine leaves it after a migration to the Google kind. *)
Definition fa_gcs : File :=
  mkFile "a" "a.png" "image/png" "room1" "user1" true 10
    "GoogleCloudStorage:Uploads"
    "/ufs/GoogleCloudStorage:Uploads/a/a.png"
    "/ufs/GoogleCloudStorage:Uploads/a/a.png"
    emptyAmazonS3 (mkGoogleStorage "NS/uploads/room1/user1/a").

(** A run over [fbad] alone, its worker launched and not yet run. *)
Definition st_bad : state :=
  mkState (AtLoop 1) Listening [Running fbad]
    (ready (Some s3) (Some gcs) false [fbad]).

(** Three records under the limit 1: the first worker is launched, works
    and signals; the loop receives the signal at index 1, then launches the
    second and the third worker. *)
Definition three_launched : list action :=
  [Main; Main; Main; Work 0; RecvDone 0; Main; Main; Main].

End sample.

(** The reading of "every other backend's sub-field is cleared" for a
    destination of kind [K]. *)
Definition othersCleared (K : string) (f' : File) : Prop :=
  (K <> "AmazonS3" -> AmazonS3_ f' = emptyAmazonS3) /\
  (K <> "GoogleCloudStorage" -> GoogleStorage_ f' = emptyGoogleStorage).


(** What the program guarantees about completion signals: past the receive
    after the loop, some worker's completion signal has been received; once
    [MigrateStore] has returned, it returned [nil] and the listener was let
    go without an error. *)
Definition drained_one (s : state) : Prop :=
  match pc s with
  | AtRelease => existsb isFinished (workers s) = true
  | Returned r =>
      r = None /\ lis s = Exited /\ existsb isFinished (workers s) = true
  | _ => True
  end.

(** * The rest of the engine: setters, [DownloadAll] *)

(** ** The setters of [methods.go] *)

Module setters.

(** Which binding a [SetTempDirectory] call went to. *)
Inductive role : Type := Source | Destination.

Definition setStoreName (m : Migrate) (v : string) : Migrate :=
  mkMigrate (debug m) (fileDelay m) v (sourceStore m)
    (destinationStore m) (tempFileLocation m) (connectionString m)
    (databaseName m) (fileOffset m) (skipErrors m) (uniqueID m)
    (fileCollectionName m) (session m).

Definition setFileOffset (m : Migrate) (v : Z) : Migrate :=
  mkMigrate (debug m) (fileDelay m) (storeName m) (sourceStore m)
    (destinationStore m) (tempFileLocation m) (connectionString m)
    (databaseName m) v (skipErrors m) (uniqueID m)
    (fileCollectionName m) (session m).

(** [DebugMode] *)
Definition DebugMode (m : Migrate) : Migrate :=
  mkMigrate true (fileDelay m) (storeName m) (sourceStore m)
    (destinationStore m) (tempFileLocation m) (connectionString m)
    (databaseName m) (fileOffset m) (skipErrors m) (uniqueID m)
    (fileCollectionName m) (session m).

(** [SetFileDelay] *)
Definition SetFileDelay (m : Migrate) (duration : Z) : Migrate :=
  mkMigrate (debug m) duration (storeName m) (sourceStore m)
    (destinationStore m) (tempFileLocation m) (connectionString m)
    (databaseName m) (fileOffset m) (skipErrors m) (uniqueID m)
    (fileCollectionName m) (session m).

(** [SetStoreName]: the error, the receiver afterwards, and the
    [SetTempDirectory] calls made on the bound providers, in order. *)
Definition SetStoreName (m : Migrate) (storeName : string)
  : option error * Migrate * list (role * string) :=
  if negb (String.eqb storeName "Uploads")
     && negb (String.eqb storeName "Avatars")
  then (Some (ErrNew "Invalid Store Name"), m, [])
  else
    let m' := setStoreName m storeName in
    let dir := tempFileLocation m' ++ "/" ++ strings.ToLower storeName in
    (None, m',
     (match sourceStore m' with Some _ => [(Source, dir)] | None => [] end
      ++
      match destinationStore m' with
      | Some _ => [(Destination, dir)]
      | None => []
      end)%list).

(** [SetFileOffset] *)
Definition SetFileOffset (m : Migrate) (offset : Z)
  : option error * Migrate :=
  if (offset =? 0)%Z then (Some (ErrNew "invalid date"), m)
  else (None, setFileOffset m offset).

End setters.

(** ** [DownloadAll] *)

Module downloader.

Section WithEnv.

Variable env : Env.

(** [DownloadAll] up to the creation of the channels: the binding check,
    [getFiles], then the limit from the environment. *)
Definition DownloadAll_setup : Run (list File * Z) :=
  m <- getM ;;
  match sourceStore m with
  | None =>
      fail (ErrNew "For DownloadAll must have a source store provided")
  | Some _ =>
      files <- getFiles env ;;
      maxRun <-
        (match MAX_CONCURRENCY env with
         | None => ret 1%Z
         | Some v =>
             match strconv.Atoi v with
             | inl e => fail e
             | inr n => ret n
             end
         end) ;;
      ret (files, maxRun)
  end.

End WithEnv.

(** Where the goroutine running [DownloadAll] stands: at the head of the
    [range] loop with index [i]; blocked in the [<-doneChan] of the loop;
    about to run [wg.Add(1)] and the [go] statement of iteration [i]; blocked
    in [wg.Wait()]; returned. *)
Inductive mainPC : Type :=
| DLoop (i : nat)
| DWait (i : nat)
| DSpawn (i : nat)
| DWgWait
| DReturned (r : option error).

Record state : Type := mkState {
  pc : mainPC;
  lis : listener;
  workers : list worker;
  world : World
}.

(** A worker has returned (and its deferred [wg.Done()] has run) once its
    channel send was received. *)
Definition hasReturned (x : worker) : bool :=
  match x with Finished | Reported => true | _ => false end.

Definition dead (s : state) : bool :=
  match lis s with Panicked _ => true | _ => false end
  || existsb isCrashed (workers s).

Section Machine.

Variable files : list File.
Variable maxRun : Z.

(** One move of [DownloadAll].  The only receive on [doneChan] is the one of
    the loop; [wg.Wait()] returns when every launched worker has returned;
    nothing is ever sent to the listener by the main goroutine. *)
Definition step (a : action) (s : state) : option state :=
  if dead s then None else
  match a with
  | Main =>
      match pc s with
      | DLoop i =>
          if (i <? length files)%nat then
            if (Z.of_nat i =? maxRun)%Z
            then Some (mkState (DWait i) (lis s) (workers s) (world s))
            else Some (mkState (DSpawn i) (lis s) (workers s) (world s))
          else Some (mkState DWgWait (lis s) (workers s) (world s))
      | DSpawn i =>
          match nth_error files i with
          | Some f =>
              Some (mkState (DLoop (S i)) (lis s)
                      (workers s ++ [Running f]) (world s))
          | None => None
          end
      | DWgWait =>
          if forallb hasReturned (workers s)
          then Some (mkState (DReturned None) (lis s) (workers s) (world s))
          else None
      | _ => None
      end
  | RecvDone j =>
      match nth_error (workers s) j, pc s with
      | Some SendingDone, DWait i =>
          Some (mkState (DSpawn i) (lis s)
                  (update j Finished (workers s)) (world s))
      | _, _ => None
      end
  | Release => None
  | Work j =>
      match nth_error (workers s) j with
      | Some (Running f) =>
          let '(r, w') := downloadOne f (world s) in
          Some (mkState (pc s) (lis s)
                  (update j (afterWork r) (workers s)) w')
      | _ => None
      end
  | Report j =>
      match nth_error (workers s) j, lis s with
      | Some (SendingErr e), Listening =>
          Some (mkState (pc s) (Panicked e)
                  (update j Reported (workers s)) (world s))
      | _, _ => None
      end
  end.

Fixpoint run (sch : list action) (s : state) : option state :=
  match sch with
  | [] => Some s
  | a :: r =>
      match step a s with
      | Some s' => run r s'
      | None => None
      end
  end.

Definition init (w : World) : state := mkState (DLoop 0) Listening [] w.

End Machine.

End downloader.

(** ** Statements about the catalog *)

(** The catalog [d'] is [d] but for the documents of id [id]: the same
    setting, and in every collection the same ids in the same order and the
    same documents under every other id. *)
Definition sameButID (id : string) (d d' : MongoDB) : Prop :=
  setting_uniqueID d' = setting_uniqueID d /\
  forall c,
    map ID (Collection d' c) = map ID (Collection d c) /\
    forall g, ID g <> id -> (In g (Collection d' c) <-> In g (Collection d c)).

(** ** Statements about the result of [MigrateStore] *)

(** The value [MigrateStore] has returned, once it has. *)
Definition returned (s : sched.state) : option (option error) :=
  match sched.pc s with
  | Returned r => Some r
  | _ => None
  end.

Definition isUpdate (e : event) : bool :=
  match e with EvUpdateOne _ _ _ _ => true | _ => false end.

Definition hasSignalled (x : worker) : bool :=
  match x with SendingDone | Finished => true | _ => false end.

(** The records a run has migrated: the catalog updates it made.  (In a run
    without a fatal error every update succeeded and its worker went on to
    its completion send.) *)
Definition migrated (s : sched.state) : nat :=
  length (filter isUpdate (trace (sched.world s))).

(** The records a run has skipped: the workers that ended at their
    completion send without a catalog update. *)
Definition skipped (s : sched.state) : nat :=
  length (filter hasSignalled (sched.workers s)) - migrated s.

(** ** Statements about the scheduler of [MigrateStore] *)

(** The completion signals received so far: the workers that have returned
    after their [doneChan <- true]. *)
Definition received (s : sched.state) : nat :=
  length (filter isFinished (sched.workers s)).

(** What every reachable state of [MigrateStore] over the candidates [files]
    under the limit [n] satisfies: the workers are those of the candidates
    before the loop index, each working on its own candidate; and the
    signals received are none up to the wait of the loop, one after it, and
    one more after the receive that follows the loop. *)
Definition sched_inv (files : list File) (n : Z) (s : sched.state) : Prop :=
  (forall j f, nth_error (sched.workers s) j = Some (Running f) ->
               nth_error files j = Some f) /\
  match sched.pc s with
  | AtLoop i =>
      length (sched.workers s) = i /\ (i <= length files)%nat /\
      ((received s = 0%nat /\ ((0 <= n)%Z -> (Z.of_nat i <= n)%Z)) \/
       (received s = 1%nat /\ (0 <= n < Z.of_nat i)%Z))
  | AtWait i =>
      length (sched.workers s) = i /\ (i < length files)%nat /\
      received s = 0%nat /\ Z.of_nat i = n
  | AtSpawn i =>
      length (sched.workers s) = i /\ (i < length files)%nat /\
      ((received s = 0%nat /\ ((0 <= n)%Z -> (Z.of_nat i < n)%Z)) \/
       (received s = 1%nat /\ (0 <= n <= Z.of_nat i)%Z))
  | AtDrain =>
      length (sched.workers s) = length files /\
      ((received s = 0%nat /\
        ((0 <= n)%Z -> (Z.of_nat (length files) <= n)%Z)) \/
       (received s = 1%nat /\ (0 <= n < Z.of_nat (length files))%Z))
  | AtRelease | Returned _ =>
      length (sched.workers s) = length files /\
      ((received s = 1%nat /\
        ((0 <= n)%Z -> (Z.of_nat (length files) <= n)%Z)) \/
       (received s = 2%nat /\ (0 <= n < Z.of_nat (length files))%Z))
  end.

(** The catalog [d'] is [d] but for documents whose id is in [ids]. *)
Definition sameOutside (ids : list string) (d d' : MongoDB) : Prop :=
  setting_uniqueID d' = setting_uniqueID d /\
  forall c,
    map ID (Collection d' c) = map ID (Collection d c) /\
    forall g, ~ In (ID g) ids ->
              (In g (Collection d' c) <-> In g (Collection d c)).

(** ** Statements about the scheduler of [DownloadAll] *)

Definition isReported (x : worker) : bool :=
  match x with Reported => true | _ => false end.

Definition dl_received (s : downloader.state) : nat :=
  length (filter isFinished (downloader.workers s)).

(** What every reachable state of [DownloadAll] over the candidates [files]
    under the limit [maxRun] satisfies: a worker whose error was received
    means the listener has panicked; the workers are those of the candidates
    before the loop index; at most one completion signal was received, in
    the wait of the loop, which needs a worker before it and a candidate
    after it; and the function has returned only if there was no
    candidate. *)
Definition dl_inv (files : list File) (maxRun : Z) (s : downloader.state)
  : Prop :=
  (existsb isReported (downloader.workers s) = true ->
   exists e, downloader.lis s = Panicked e) /\
  match downloader.pc s with
  | downloader.DLoop i =>
      length (downloader.workers s) = i /\ (i <= length files)%nat /\
      (dl_received s = 0%nat \/
       (dl_received s = 1%nat /\ (maxRun < Z.of_nat i)%Z /\ (2 <= i)%nat))
  | downloader.DWait i =>
      length (downloader.workers s) = i /\ (i < length files)%nat /\
      dl_received s = 0%nat /\ Z.of_nat i = maxRun
  | downloader.DSpawn i =>
      length (downloader.workers s) = i /\ (i < length files)%nat /\
      (dl_received s = 0%nat \/
       (dl_received s = 1%nat /\ (maxRun <= Z.of_nat i)%Z /\ (1 <= i)%nat))
  | downloader.DWgWait =>
      length (downloader.workers s) = length files /\
      (dl_received s = 0%nat \/
       (dl_received s = 1%nat /\ (2 <= length files)%nat))
  | downloader.DReturned r =>
      r = None /\ files = [] /\ downloader.workers s = []
  end.

(** A fetch from the source. *)
Definition isDownload (e : event) : bool :=
  match e with EvDownload _ _ => true | _ => false end.

(** A push or a catalog update. *)
Definition isWrite (e : event) : bool :=
  match e with EvUpload _ _ _ | EvUpdateOne _ _ _ _ => true | _ => false end.

(** ** More sample data *)

Module sample2.

(** An object store that refuses every push. *)
Definition full : Provider :=
  mkProvider "AmazonS3" sample.fetch (fun _ _ _ => Some (ErrOther "quota")).

(** The world [getFiles] leaves for a run from [sample.gcs] to [full]. *)
Definition ready_full (skip : bool) : World :=
  sample.ready (Some sample.gcs) (Some full) skip [sample.fa_gcs].

(** Records held by the Google kind: [gp] not completed, [gq] and [gr]
    completed. *)
Definition held (id : string) (complete : bool) : File :=
  mkFile id (id ++ ".png") "image/png" "room1" "user1" complete 10
    "GoogleCloudStorage:Uploads" "" "" emptyAmazonS3
    (mkGoogleStorage ("NS/uploads/room1/user1/" ++ id)).

Definition gp : File := held "p" false.
Definition gq : File := held "q" true.
Definition gr : File := held "r" true.

(** A run of [UploadAll] towards [full] over these records, its world after
    [getFiles], after the pass for [gp], and after the pass for [gq]. *)
Definition up0 : World :=
  sample.start (Some sample.gcs) (Some full) false [gp; gq; gr].
Definition up1 : World := snd (getFiles (sample.environ None) up0).
Definition up2 : World :=
  snd (uploadOne (sample.environ None) "/data/uploads" gp up1).
Definition up3 : World :=
  snd (uploadOne (sample.environ None) "/data/uploads" gq up2).

(** A run of [MigrateStore] over the single record [f] under the default
    limit, up to the return: the worker is launched, works, its completion
    signal is received after the loop, the listener is let go. *)
Definition single (f : File) : sched.state :=
  match sched.run (sample.environ None) [f] 1
          [Main; Main; Main; Work 0; RecvDone 0; Release]
          (sched.init
             (sample.ready (Some sample.s3) (Some sample.gcs) false [f])) with
  | Some s => s
  | None =>
      sched.init (sample.ready (Some sample.s3) (Some sample.gcs) false [f])
  end.

(** Runs of [MigrateStore] over three completed records: the state a
    schedule leads to under the limit [n]. *)
Definition files3 : list File := [sample.fa; sample.fb; sample.fc].

Definition ready3 : World :=
  sample.ready (Some sample.s3) (Some sample.gcs) false files3.

Definition reach (n : Z) (sch : list action) : sched.state :=
  match sched.run (sample.environ None) files3 n sch (sched.init ready3) with
  | Some s => s
  | None => sched.init ready3
  end.

(** Under the limit 1, until [MigrateStore] returns. *)
Definition to_return : list action :=
  (sample.three_launched ++ [Main; Work 1; RecvDone 1; Release])%list.

(** Under the limit 2, until the third worker is launched. *)
Definition third_after_wait : list action :=
  [Main; Main; Main; Main; Main; Work 0; RecvDone 0; Main].

(** A run of [MigrateStore] over [sample.fa] and [sample.fbad] under the
    limit 5, the skip flag unset: the state a schedule leads to. *)
Definition lost_files : list File := [sample.fa; sample.fbad].

Definition lost_ready : World :=
  sample.ready (Some sample.s3) (Some sample.gcs) false lost_files.

Definition lost_reach (sch : list action) : sched.state :=
  match sched.run (sample.environ None) lost_files 5 sch
          (sched.init lost_ready) with
  | Some s => s
  | None => sched.init lost_ready
  end.

(** Both workers launched, the first one done and received, the return. *)
Definition lost_return : list action :=
  [Main; Main; Main; Main; Main; Work 0; RecvDone 0; Release].

(** A run of [DownloadAll] over [sample.fa] and [sample.fb]: the state a
    schedule leads to under the limit 1. *)
Definition dl_ready : World :=
  sample.ready (Some sample.s3) None false [sample.fa; sample.fb].

Definition dl_reach (sch : list action) : downloader.state :=
  match downloader.run [sample.fa; sample.fb] 1 sch
          (downloader.init dl_ready) with
  | Some s => s
  | None => downloader.init dl_ready
  end.

(** Both workers launched, the first one's signal received in the loop, the
    second one blocked in its send. *)
Definition dl_both : list action :=
  [Main; Main; Main; Work 0; RecvDone 0; Main; Main; Work 1].

End sample2.

(** * Theorems *)

(** ** Strings *)



Lemma eqb_false_of_neq (a b : string) : a <> b -> String.eqb a b = false.
Proof. intro H. now apply String.eqb_neq. Qed.

(** ** The two policy functions as equations *)

Ltac run_unfold :=
  unfold getObjectPath, fixFileForUpload, UpdateOne, bind, getM, getDB, putDB,
    modM, emit, deref, liftErr, ret, fail, panic.

Lemma getObjectPath_eq (file : File) (w : World) (dst : Provider) :
  destinationStore (mig w) = Some dst ->
  getObjectPath file w =
    (Ok (if String.eqb (StoreType dst) "FileSystem" then ID file
         else if String.eqb (storeName (mig w)) "Uploads" then
           uniqueID (mig w) ++ "/" ++ strings.ToLower (storeName (mig w))
             ++ "/" ++ Rid file ++ "/" ++ UserID file ++ "/" ++ ID file
         else if String.eqb (storeName (mig w)) "Avatars" then
           uniqueID (mig w) ++ "/" ++ strings.ToLower (storeName (mig w))
             ++ "/" ++ UserID file
         else ""), w).
Proof.
  intro H. run_unfold. rewrite H.
  destruct (String.eqb (StoreType dst) "FileSystem"); reflexivity.
Qed.

Lemma fixFileForUpload_eq (file : File) (objectPath : string) (w : World)
  (dst : Provider) :
  destinationStore (mig w) = Some dst ->
  fixFileForUpload file objectPath w =
    (Ok (let fu :=
           if String.eqb (StoreType dst) "AmazonS3" then
             (setGoogleStorage (setAmazonS3 file (mkAmazonS3 objectPath))
                emptyGoogleStorage, "GoogleStorage")
           else if String.eqb (StoreType dst) "GoogleCloudStorage" then
             (setAmazonS3 (setGoogleStorage file (mkGoogleStorage objectPath))
                emptyAmazonS3, "AmazonS3")
           else (file, "") in
         let ufsPath :=
           "/ufs/" ++ StoreType dst ++ ":" ++ storeName (mig w) ++ "/"
             ++ ID file ++ "/" ++ Name file in
         (setLocation (fst fu) ufsPath ufsPath
            (StoreType dst ++ ":" ++ storeName (mig w)), snd fu)), w).
Proof.
  intro H. run_unfold. rewrite H.
  destruct (String.eqb (StoreType dst) "AmazonS3");
    [|destruct (String.eqb (StoreType dst) "GoogleCloudStorage")];
    reflexivity.
Qed.

Lemma withDefaults_Rid (m : Migrate) (file : File) :
  storeName m = "Uploads" ->
  Rid (withDefaults m file) = orUndefined (Rid file).
Proof.
  intro H. unfold withDefaults, orUndefined. rewrite H. simpl.
  destruct (String.eqb (Rid file) "") eqn:E; simpl;
    destruct (String.eqb (UserID file) ""); simpl; try reflexivity;
    destruct (String.eqb (UserID _) ""); reflexivity.
Qed.

Lemma withDefaults_UserID (m : Migrate) (file : File) :
  UserID (withDefaults m file) = orUndefined (UserID file).
Proof.
  unfold withDefaults, orUndefined.
  destruct (String.eqb (Rid file) "" && String.eqb (storeName m) "Uploads");
    simpl; destruct (String.eqb (UserID file) ""); reflexivity.
Qed.

Lemma withDefaults_ID (m : Migrate) (file : File) :
  ID (withDefaults m file) = ID file.
Proof.
  unfold withDefaults.
  destruct (String.eqb (Rid file) "" && String.eqb (storeName m) "Uploads");
    simpl; destruct (String.eqb (UserID file) ""); reflexivity.
Qed.

Lemma withDefaults_Type (m : Migrate) (file : File) :
  Type_ (withDefaults m file) = Type_ file.
Proof.
  unfold withDefaults.
  destruct (String.eqb (Rid file) "" && String.eqb (storeName m) "Uploads");
    simpl; destruct (String.eqb (UserID file) ""); reflexivity.
Qed.

(** ** Candidate selection *)

(** When [getFiles] returns, the candidates are the documents of the
    collection that match the query on the source kind and the offset; the
    catalog is as it was. *)
Lemma getFiles_ok (env : Env) (w w' : World) (files : list File)
  (src : Provider) :
  sourceStore (mig w) = Some src ->
  getFiles env w = (Ok files, w') ->
  files =
    filter
      (matches (mkQuery (StoreType src ++ ":" ++ storeName (mig w))
                  (if (fileOffset (mig w) =? 0)%Z then None
                   else Some (fileOffset (mig w)))))
      (Collection (db w) (fileCollectionName (mig w'))) /\
  db w' = db w.
Proof.
  intros Hs H.
  unfold getFiles in H. unfold bind at 1 in H. unfold getM at 1 in H.
  destruct (String.eqb (storeName (mig w)) ""); [discriminate|].
  unfold bind at 1 in H.
  destruct (String.eqb (storeName (mig w)) "Uploads");
    [|destruct (String.eqb (storeName (mig w)) "Avatars");
      [|discriminate]];
    unfold ret at 1 in H; unfold bind, modM, emit, getDB in H; simpl in H;
    (destruct (connectDB env (connectionString (mig w))); [discriminate|]);
    simpl in H;
    (destruct (setting_uniqueID (db w)); [|discriminate]); simpl in H;
    rewrite Hs in H; simpl in H;
    (destruct (findError env) as [e|];
       [destruct (isErrNoDocuments e); discriminate|]);
    (destruct (cursorError env); [discriminate|]); simpl in H;
    injection H as H Hw; subst files w'; split; reflexivity.
Qed.


(** ** The worker of [MigrateStore] after a successful fetch *)

(** With both roles bound, a completed record and a fetch that returned the
    local path [lp]: the worker computes the destination path of the
    defaulted record, pushes, and on success mutates the record and updates
    the catalog. *)
Lemma migrateOne_fetched (env : Env) (file : File) (w : World)
  (src dst : Provider) (lp : string) :
  sourceStore (mig w) = Some src ->
  destinationStore (mig w) = Some dst ->
  Complete file = true ->
  Download src (fileCollectionName (mig w)) file = (lp, None) ->
  exists p f' unset,
    getObjectPath (withDefaults (mig w) file) w = (Ok p, w) /\
    fixFileForUpload (withDefaults (mig w) file) p w = (Ok (f', unset), w) /\
    let w2 :=
      mkWorld (mig w) (db w)
        (trace w ++ [EvDownload (fileCollectionName (mig w)) (ID file);
                     EvUpload p lp (Type_ file)]) in
    migrateOne env file w =
      match Upload dst p lp (Type_ file) with
      | Some e => (Err e, w2)
      | None => UpdateOne env f' unset w2
      end.
Proof.
  intros Hs Hd Hc Hdl.
  set (w1 := mkWorld (mig w) (db w)
               (trace w ++ [EvDownload (fileCollectionName (mig w)) (ID file)])).
  set (f1 := withDefaults (mig w) file).
  assert (Hd1 : destinationStore (mig w1) = Some dst) by exact Hd.
  pose proof (getObjectPath_eq f1 w1 dst Hd1) as Hp1.
  pose proof (getObjectPath_eq f1 w dst Hd) as Hp.
  simpl mig in Hp1.
  set (p := if String.eqb (StoreType dst) "FileSystem" then _ else _) in *.
  set (w2 := mkWorld (mig w) (db w) (trace w1 ++ [EvUpload p lp (Type_ f1)])).
  assert (Hd2 : destinationStore (mig w2) = Some dst) by exact Hd.
  pose proof (fixFileForUpload_eq f1 p w2 dst Hd2) as Hfix2.
  pose proof (fixFileForUpload_eq f1 p w dst Hd) as Hfix.
  simpl mig in Hfix2.
  cbv zeta in Hfix, Hfix2.
  exists p. eexists. eexists.
  split; [exact Hp|]. split; [rewrite Hfix; reflexivity|].
  assert (Hw2 : w2 = mkWorld (mig w) (db w)
            (trace w ++ [EvDownload (fileCollectionName (mig w)) (ID file);
                         EvUpload p lp (Type_ file)])).
  { unfold w2, w1, f1. simpl. rewrite withDefaults_Type, <- app_assoc.
    reflexivity. }
  cbv zeta. rewrite <- Hw2.
  replace (Type_ file) with (Type_ f1) by apply withDefaults_Type.
  unfold migrateOne. unfold bind at 1. unfold getM at 1.
  unfold bind at 1. rewrite Hs. unfold deref at 1, ret at 1.
  rewrite Hc. cbn [negb].
  unfold bind at 1. unfold emit at 1. rewrite Hdl.
  unfold bind at 1. fold f1. fold w1. rewrite Hp1.
  unfold bind at 1. rewrite Hd. unfold deref at 1, ret at 1.
  unfold bind at 1. unfold emit at 1. fold w2.
  unfold bind at 1.
  destruct (Upload dst p lp (Type_ f1)); unfold liftErr.
  - reflexivity.
  - unfold ret at 1. unfold bind at 1.
    match goal with
    | |- context [fixFileForUpload f1 p ?x] => change x with w2
    end.
    rewrite Hfix2. reflexivity.
Qed.

(** The trace the worker leaves in that case starts with the fetch and the
    push. *)
Lemma migrateOne_pushes (env : Env) (file : File) (w : World)
  (src dst : Provider) (lp : string) :
  sourceStore (mig w) = Some src ->
  destinationStore (mig w) = Some dst ->
  Complete file = true ->
  Download src (fileCollectionName (mig w)) file = (lp, None) ->
  exists p tl,
    getObjectPath (withDefaults (mig w) file) w = (Ok p, w) /\
    trace (snd (migrateOne env file w)) =
      (trace w ++ EvDownload (fileCollectionName (mig w)) (ID file)
               :: EvUpload p lp (Type_ file) :: tl)%list.
Proof.
  intros Hs Hd Hc Hdl.
  destruct (migrateOne_fetched env file w src dst lp Hs Hd Hc Hdl)
    as (p & f' & unset & Hp & _ & E).
  cbv zeta in E. rewrite E. exists p.
  destruct (Upload dst p lp (Type_ file)) as [e|].
  - exists []. split; [exact Hp|]. reflexivity.
  - unfold UpdateOne, bind, getM, emit, getDB, putDB, fail.
    destruct (updateError env f'); eexists; (split; [exact Hp|]); simpl;
      rewrite <- !app_assoc; reflexivity.
Qed.

(** A successful migration: push and update succeed, the worker ends at its
    completion send and the document of that id in the collection is the
    mutated record. *)
Lemma migrateOne_migrated (env : Env) (file : File) (w : World)
  (src dst : Provider) (lp : string) :
  sourceStore (mig w) = Some src ->
  destinationStore (mig w) = Some dst ->
  Complete file = true ->
  Download src (fileCollectionName (mig w)) file = (lp, None) ->
  exists p f' unset,
    fixFileForUpload (withDefaults (mig w) file) p w = (Ok (f', unset), w) /\
    (Upload dst p lp (Type_ file) = None ->
     updateError env f' = None ->
     fst (migrateOne env file w) = Ok tt /\
     db (snd (migrateOne env file w)) =
       withCollection (db w) (fileCollectionName (mig w))
         (replaceByID (ID f') f'
            (Collection (db w) (fileCollectionName (mig w))))).
Proof.
  intros Hs Hd Hc Hdl.
  destruct (migrateOne_fetched env file w src dst lp Hs Hd Hc Hdl)
    as (p & f' & unset & _ & Hfix & E).
  exists p, f', unset. split; [exact Hfix|].
  intros Hup Hupd. cbv zeta in E. rewrite E, Hup.
  unfold UpdateOne, bind, getM, emit, getDB, putDB. simpl.
  rewrite Hupd. simpl. split; reflexivity.
Qed.

(** [UploadAll] computes the path of the record as read: its loop body has
    no defaulting statements, so an empty room id stays empty in the path. *)
Example uploadOne_path_of_empty_room :
  trace (snd (uploadOne (sample.environ None) "/data/uploads" sample.fb
                (sample.ready None (Some sample.gcs) false [sample.fb]))) =
    [EvStat "/data/uploads/b";
     EvUpload "NS/uploads///b" "/data/uploads/b" "image/png";
     EvUpdateOne "rocketchat_uploads" "b"
       (setLocation
          (setAmazonS3
             (setGoogleStorage sample.fb (mkGoogleStorage "NS/uploads///b"))
             emptyAmazonS3)
          "/ufs/GoogleCloudStorage:Uploads/b/b.png"
          "/ufs/GoogleCloudStorage:Uploads/b/b.png"
          "GoogleCloudStorage:Uploads")
       "AmazonS3"].
Proof. vm_compute. reflexivity. Qed.

(** ** Claims on the policy functions *)

(** C10. [GridFSProvider.Download] returns the empty local path and no error
    for every collection and record; so with a GridFS source the worker of
    [MigrateStore] never takes the absent-at-source skip for a completed
    record: it goes on to the push, and the local path it hands to the
    destination is the empty string. *)
Theorem C10_gridfs_download_is_empty (g : GridFSProvider) (env : Env)
  (file : File) (w : World) (dst : Provider) :
  sourceStore (mig w) = Some (gridfs g) ->
  destinationStore (mig w) = Some dst ->
  Complete file = true ->
  (forall coll f, GridFS.Download g coll f = ("", None)) /\
  (forall coll f, snd (Download (gridfs g) coll f) <> Some ErrNotFound) /\
  exists p tl,
    trace (snd (migrateOne env file w)) =
      (trace w ++ EvDownload (fileCollectionName (mig w)) (ID file)
               :: EvUpload p "" (Type_ file) :: tl)%list.
Proof.
  intros Hs Hd Hc. split; [reflexivity|]. split; [discriminate|].
  destruct (migrateOne_pushes env file w (gridfs g) dst "" Hs Hd Hc eq_refl)
    as (p & tl & _ & Ht).
  now exists p, tl.
Qed.

Lemma C10_witness :
  (forall coll f, GridFS.Download (mkGridFS "rocketchat" "/tmp") coll f
                  = ("", None)) /\
  (forall coll f,
     snd (Download (gridfs (mkGridFS "rocketchat" "/tmp")) coll f)
     <> Some ErrNotFound) /\
  exists p tl,
    trace (snd (migrateOne (sample.environ None) sample.fa
                  (sample.ready (Some (gridfs (mkGridFS "rocketchat" "/tmp")))
                     (Some sample.s3) false [sample.fa]))) =
      ([] ++ EvDownload "rocketchat_uploads" "a"
          :: EvUpload p "" "image/png" :: tl)%list.
Proof.
  apply (C10_gridfs_download_is_empty (mkGridFS "rocketchat" "/tmp")
           (sample.environ None) sample.fa
           (sample.ready (Some (gridfs (mkGridFS "rocketchat" "/tmp")))
              (Some sample.s3) false [sample.fa]) sample.s3);
    reflexivity.
Defined.

(** C5. When the worker of [MigrateStore] computes a destination path (the
    record is completed and its fetch succeeded), the path it pushes to is:
    the record id when the destination kind is FileSystem, whatever the
    category; otherwise {namespace}/uploads/{roomId}/{userId}/{recordId} for
    Uploads and {namespace}/avatars/{userId} for Avatars, an empty roomId or
    userId being replaced by the literal undefined. *)
Theorem C5_destination_path (env : Env) (file : File) (w : World)
  (src dst : Provider) (lp : string) :
  sourceStore (mig w) = Some src ->
  destinationStore (mig w) = Some dst ->
  Complete file = true ->
  Download src (fileCollectionName (mig w)) file = (lp, None) ->
  exists p tl,
    trace (snd (migrateOne env file w)) =
      (trace w ++ EvDownload (fileCollectionName (mig w)) (ID file)
               :: EvUpload p lp (Type_ file) :: tl)%list /\
    (StoreType dst = "FileSystem" -> p = ID file) /\
    (StoreType dst <> "FileSystem" -> storeName (mig w) = "Uploads" ->
     p = uniqueID (mig w) ++ "/uploads/" ++ orUndefined (Rid file) ++ "/"
           ++ orUndefined (UserID file) ++ "/" ++ ID file) /\
    (StoreType dst <> "FileSystem" -> storeName (mig w) = "Avatars" ->
     p = uniqueID (mig w) ++ "/avatars/" ++ orUndefined (UserID file)).
Proof.
  intros Hs Hd Hc Hdl.
  destruct (migrateOne_pushes env file w src dst lp Hs Hd Hc Hdl)
    as (p & tl & Hp & Ht).
  exists p, tl. split; [exact Ht|].
  rewrite (getObjectPath_eq _ _ _ Hd) in Hp.
  injection Hp as Hp. subst p.
  rewrite withDefaults_ID, withDefaults_UserID.
  repeat split.
  - intros ->. reflexivity.
  - intros Hk Hn. rewrite (eqb_false_of_neq _ _ Hk).
    rewrite (withDefaults_Rid _ _ Hn), Hn. reflexivity.
  - intros Hk Hn. rewrite (eqb_false_of_neq _ _ Hk), Hn. reflexivity.
Qed.

Lemma C5_witness :
  exists p tl,
    trace (snd (migrateOne (sample.environ None) sample.fb
                  (sample.ready (Some sample.s3) (Some sample.gcs) false
                     [sample.fb]))) =
      ([] ++ EvDownload "rocketchat_uploads" "b"
          :: EvUpload p "/tmp/uploads/b" "image/png" :: tl)%list /\
    ("GoogleCloudStorage" = "FileSystem" -> p = "b") /\
    ("GoogleCloudStorage" <> "FileSystem" -> "Uploads" = "Uploads" ->
     p = "NS" ++ "/uploads/" ++ orUndefined "" ++ "/" ++ orUndefined ""
           ++ "/" ++ "b") /\
    ("GoogleCloudStorage" <> "FileSystem" -> "Uploads" = "Avatars" ->
     p = "NS" ++ "/avatars/" ++ orUndefined "").
Proof.
  apply (C5_destination_path (sample.environ None) sample.fb
           (sample.ready (Some sample.s3) (Some sample.gcs) false [sample.fb])
           sample.s3 sample.gcs "/tmp/uploads/b");
    reflexivity.
Defined.

(** C4, as amended.  After [fixFileForUpload] for a destination of kind K the
    served URL and path are /ufs/{K}:{category}/{recordId}/{name} and the
    backend descriptor is {K}:{category}.  For K = AmazonS3 the AmazonS3
    sub-field holds the destination path and the GoogleStorage sub-field is
    cleared and named for removal; for K = GoogleCloudStorage the other way
    round; for every other kind both sub-fields are left as they were and
    nothing is named for removal. *)
Theorem C4_record_mutation (file : File) (path : string) (w : World)
  (dst : Provider) :
  destinationStore (mig w) = Some dst ->
  exists f' unset,
    fixFileForUpload file path w = (Ok (f', unset), w) /\
    URL f' = "/ufs/" ++ StoreType dst ++ ":" ++ storeName (mig w) ++ "/"
               ++ ID file ++ "/" ++ Name file /\
    Path f' = URL f' /\
    Store f' = StoreType dst ++ ":" ++ storeName (mig w) /\
    (StoreType dst = "AmazonS3" ->
     AmazonS3_ f' = mkAmazonS3 path /\
     GoogleStorage_ f' = emptyGoogleStorage /\ unset = "GoogleStorage") /\
    (StoreType dst = "GoogleCloudStorage" ->
     GoogleStorage_ f' = mkGoogleStorage path /\
     AmazonS3_ f' = emptyAmazonS3 /\ unset = "AmazonS3") /\
    (StoreType dst <> "AmazonS3" -> StoreType dst <> "GoogleCloudStorage" ->
     AmazonS3_ f' = AmazonS3_ file /\
     GoogleStorage_ f' = GoogleStorage_ file /\ unset = "").
Proof.
  intro Hd. rewrite (fixFileForUpload_eq _ _ _ _ Hd). cbv zeta.
  eexists. eexists. split; [reflexivity|].
  destruct (String.eqb_spec (StoreType dst) "AmazonS3") as [Ea|Na];
    [|destruct (String.eqb_spec (StoreType dst) "GoogleCloudStorage")
        as [Eg|Ng]];
    simpl; repeat split; try reflexivity; try congruence;
    try (rewrite Ea; discriminate); try (rewrite Eg; discriminate);
    try (intros; exfalso; congruence).
Qed.

Lemma C4_witness :
  exists f' unset,
    fixFileForUpload sample.fa "NS/uploads/room1/user1/a"
      (sample.ready (Some sample.s3) (Some sample.gcs) false [sample.fa])
    = (Ok (f', unset),
       sample.ready (Some sample.s3) (Some sample.gcs) false [sample.fa]) /\
    URL f' = "/ufs/" ++ "GoogleCloudStorage" ++ ":" ++ "Uploads" ++ "/"
               ++ "a" ++ "/" ++ "a.png" /\
    Path f' = URL f' /\
    Store f' = "GoogleCloudStorage" ++ ":" ++ "Uploads" /\
    ("GoogleCloudStorage" = "AmazonS3" ->
     AmazonS3_ f' = mkAmazonS3 "NS/uploads/room1/user1/a" /\
     GoogleStorage_ f' = emptyGoogleStorage /\ unset = "GoogleStorage") /\
    ("GoogleCloudStorage" = "GoogleCloudStorage" ->
     GoogleStorage_ f' = mkGoogleStorage "NS/uploads/room1/user1/a" /\
     AmazonS3_ f' = emptyAmazonS3 /\ unset = "AmazonS3") /\
    ("GoogleCloudStorage" <> "AmazonS3" ->
     "GoogleCloudStorage" <> "GoogleCloudStorage" ->
     AmazonS3_ f' = AmazonS3_ sample.fa /\
     GoogleStorage_ f' = GoogleStorage_ sample.fa /\ unset = "").
Proof.
  apply (C4_record_mutation sample.fa "NS/uploads/room1/user1/a"
           (sample.ready (Some sample.s3) (Some sample.gcs) false [sample.fa])
           sample.gcs).
  reflexivity.
Defined.

(** C4 as stated fails for a FileSystem destination: the record keeps the
    AmazonS3 sub-field it had, and nothing is named for removal. *)
Lemma C4_counterexample :
  exists f' w',
    fixFileForUpload sample.fa "a"
      (sample.ready (Some sample.s3) (Some sample.fs) false [sample.fa])
    = (Ok (f', ""), w') /\
    AmazonS3_ f' = mkAmazonS3 "NS/uploads/room1/user1/a" /\
    ~ othersCleared "FileSystem" f'.
Proof.
  eexists. eexists. split; [reflexivity|]. split; [reflexivity|].
  intros [H _]. specialize (H ltac:(discriminate)). discriminate H.
Qed.



(** ** The worker of [MigrateStore] on a failed fetch or an incomplete
       record *)

Lemma migrateOne_incomplete (env : Env) (file : File) (w : World)
  (src : Provider) :
  sourceStore (mig w) = Some src ->
  Complete file = false ->
  migrateOne env file w = (Ok tt, w).
Proof.
  intros Hs Hc. unfold migrateOne, bind, getM. rewrite Hs. simpl.
  rewrite Hc. reflexivity.
Qed.

Lemma migrateOne_fetch_failed (env : Env) (file : File) (w : World)
  (src : Provider) (lp : string) (e : error) :
  sourceStore (mig w) = Some src ->
  Complete file = true ->
  Download src (fileCollectionName (mig w)) file = (lp, Some e) ->
  migrateOne env file w =
    (if isErrNotFound e || skipErrors (mig w) then Ok tt else Err e,
     mkWorld (mig w) (db w)
       (trace w ++ [EvDownload (fileCollectionName (mig w)) (ID file)])).
Proof.
  intros Hs Hc Hdl. unfold migrateOne, bind, getM. rewrite Hs. simpl.
  rewrite Hc. simpl. rewrite Hdl.
  destruct (isErrNotFound e || skipErrors (mig w)); reflexivity.
Qed.

(** ** The scheduler: list bookkeeping *)


Lemma nth_error_update_same (l : list worker) (j : nat) (x y : worker) :
  nth_error l j = Some y -> nth_error (update j x l) j = Some x.
Proof.
  revert j; induction l as [|a l IH]; intros [|j] H; simpl in *;
    try discriminate; [reflexivity | now apply IH].
Qed.

Lemma existsb_update_false (p : worker -> bool) (l : list worker) (j : nat)
  (x : worker) :
  existsb p l = false -> p x = false -> existsb p (update j x l) = false.
Proof.
  revert j; induction l as [|a l IH]; intros [|j] H Hx; simpl in *;
    try reflexivity; apply orb_false_iff in H; destruct H as [Ha Hl].
  - now rewrite Hx, Hl.
  - rewrite Ha. simpl. now apply IH.
Qed.

(** Replacing a worker that does not satisfy [p] keeps a witness of [p]. *)
Lemma existsb_update_keep (p : worker -> bool) (l : list worker) (j : nat)
  (x y : worker) :
  existsb p l = true -> nth_error l j = Some y -> p y = false ->
  existsb p (update j x l) = true.
Proof.
  revert j; induction l as [|a l IH]; intros [|j] H Hn Hy; simpl in *;
    try discriminate.
  - injection Hn as ->. rewrite Hy in H. simpl in H. rewrite H.
    apply orb_true_r.
  - apply orb_true_iff in H. destruct H as [H|H].
    + now rewrite H.
    + rewrite (IH j H Hn Hy). apply orb_true_r.
Qed.

Lemma existsb_update_new (p : worker -> bool) (l : list worker) (j : nat)
  (x y : worker) :
  nth_error l j = Some y -> p x = true -> existsb p (update j x l) = true.
Proof.
  revert j; induction l as [|a l IH]; intros [|j] Hn Hx; simpl in *;
    try discriminate.
  - now rewrite Hx.
  - rewrite (IH j Hn Hx). apply orb_true_r.
Qed.

Lemma dead_false (s : state) :
  dead s = false ->
  (forall e, lis s <> Panicked e) /\ existsb isCrashed (workers s) = false.
Proof.
  unfold dead. intro H. apply orb_false_iff in H. destruct H as [Hl Hc].
  split; [|exact Hc]. intros e He. rewrite He in Hl. discriminate.
Qed.

(** Once the listener has panicked no move is enabled. *)
Lemma panicked_is_final (env : Env) (files : list File) (n : Z) (s : state)
  (e : error) (a : action) :
  lis s = Panicked e -> step env files n a s = None.
Proof.
  intro H. unfold step, dead. rewrite H. reflexivity.
Qed.

(** The branch of the worker on a failed fetch.  For a completed record
    whose fetch fails, in any live state of a run: if the cause is
    object-not-found the worker ends at its completion send, whatever the
    skip flag; for any other cause it does the same when the skip flag is
    set, and when it is unset it ends at the send of the error; while the
    error goroutine is still listening that send can be received, and the
    panic that follows ends the run.  In all cases the record is neither
    pushed nor updated: the only event is the fetch and the catalog is as
    before.  (Whether the send is ever received is another matter: see the
    scheduler.) *)
Lemma fetch_failure_policy (env : Env) (files : list File) (n : Z)
  (s : state) (j : nat) (file : File) (src : Provider) (lp : string)
  (e : error) :
  dead s = false ->
  nth_error (workers s) j = Some (Running file) ->
  sourceStore (mig (world s)) = Some src ->
  Complete file = true ->
  Download src (fileCollectionName (mig (world s))) file = (lp, Some e) ->
  exists s',
    step env files n (Work j) s = Some s' /\
    db (world s') = db (world s) /\
    trace (world s') =
      (trace (world s)
       ++ [EvDownload (fileCollectionName (mig (world s))) (ID file)])%list /\
    (e = ErrNotFound ->
     nth_error (workers s') j = Some SendingDone /\ dead s' = false) /\
    (e <> ErrNotFound -> skipErrors (mig (world s)) = true ->
     nth_error (workers s') j = Some SendingDone /\ dead s' = false) /\
    (e <> ErrNotFound -> skipErrors (mig (world s)) = false ->
     nth_error (workers s') j = Some (SendingErr e) /\
     (lis s = Listening ->
      exists s'',
        step env files n (Report j) s' = Some s'' /\
        lis s'' = Panicked e /\
        forall a, step env files n a s'' = None)).
Proof.
  intros Hlive Hj Hs Hc Hdl.
  pose proof (migrateOne_fetch_failed env file (world s) src lp e Hs Hc Hdl)
    as E.
  destruct (dead_false s Hlive) as [Hnp Hnc].
  eexists. split.
  { unfold step. rewrite Hlive, Hj, E. reflexivity. }
  simpl. split; [reflexivity|]. split; [reflexivity|].
  assert (Hdead : forall x, isCrashed x = false ->
            dead (mkState (pc s) (lis s) (update j x (workers s))
                    (mkWorld (mig (world s)) (db (world s))
                       (trace (world s) ++
                        [EvDownload (fileCollectionName (mig (world s)))
                           (ID file)]))) = false).
  { intros x Hx. unfold dead. simpl.
    rewrite (existsb_update_false _ _ _ _ Hnc Hx).
    destruct (lis s); try reflexivity. exfalso. now apply (Hnp e0). }
  split; [|split].
  - intros ->. simpl. split.
    + now apply nth_error_update_same with (y := Running file).
    + now apply Hdead.
  - intros Hne Hsk. rewrite Hsk, orb_true_r. simpl. split.
    + now apply nth_error_update_same with (y := Running file).
    + now apply Hdead.
  - intros Hne Hsk. rewrite Hsk, orb_false_r.
    assert (Hnf : isErrNotFound e = false)
      by (destruct e; try reflexivity; congruence).
    rewrite Hnf. simpl.
    pose proof (nth_error_update_same _ _ (SendingErr e) _ Hj) as Hu.
    split; [exact Hu|].
    intro Hl. eexists. split.
    { unfold step. rewrite (Hdead (SendingErr e) eq_refl). simpl.
      rewrite Hu, Hl. reflexivity. }
    split; [reflexivity|].
    intro a. now apply panicked_is_final with (e := e).
Qed.

Lemma fetch_failure_policy_witness :
  exists s',
    step (sample.environ None) [sample.fbad] 1 (Work 0) sample.st_bad
      = Some s' /\
    db (world s') = db (world sample.st_bad) /\
    trace (world s') = ([] ++ [EvDownload "rocketchat_uploads" "bad"])%list /\
    (ErrOther "timeout" = ErrNotFound ->
     nth_error (workers s') 0 = Some SendingDone /\ dead s' = false) /\
    (ErrOther "timeout" <> ErrNotFound -> false = true ->
     nth_error (workers s') 0 = Some SendingDone /\ dead s' = false) /\
    (ErrOther "timeout" <> ErrNotFound -> false = false ->
     nth_error (workers s') 0 = Some (SendingErr (ErrOther "timeout")) /\
     (Listening = Listening ->
      exists s'',
        step (sample.environ None) [sample.fbad] 1 (Report 0) s' = Some s'' /\
        lis s'' = Panicked (ErrOther "timeout") /\
        forall a, step (sample.environ None) [sample.fbad] 1 a s'' = None)).
Proof.
  apply (fetch_failure_policy (sample.environ None) [sample.fbad] 1
           sample.st_bad 0 sample.fbad sample.s3 "" (ErrOther "timeout"));
    reflexivity.
Defined.

(** Three candidates under the limit 2, the first absent at the source: its
    worker only fetches and signals completion; the run goes on, the other
    two records are pushed and updated, and [MigrateStore] returns [nil]. *)
Example not_found_record_is_tolerated :
  exists st,
    run (sample.environ (Some "2")) [sample.fgone; sample.fa; sample.fb] 2
      [Main; Main; Main; Main; Main; Work 0; RecvDone 0; Main; Main;
       Work 1; Work 2; RecvDone 1; Release]
      (init (sample.ready (Some sample.s3) (Some sample.gcs) false
               [sample.fgone; sample.fa; sample.fb])) = Some st /\
    pc st = Returned None /\ lis st = Exited /\
    workers st = [Finished; Finished; SendingDone] /\
    map ID (Collection (db (world st)) "rocketchat_uploads")
      = ["gone"; "a"; "b"] /\
    map Store (Collection (db (world st)) "rocketchat_uploads")
      = ["AmazonS3:Uploads"; "GoogleCloudStorage:Uploads";
         "GoogleCloudStorage:Uploads"] /\
    filter (fun e => match e with EvDownload _ _ => true | _ => false end)
      (trace (world st))
      = [EvDownload "rocketchat_uploads" "gone";
         EvDownload "rocketchat_uploads" "a";
         EvDownload "rocketchat_uploads" "b"] /\
    length (filter (fun e => match e with EvUpload _ _ _ => true
                                     | _ => false end)
              (trace (world st))) = 2.
Proof.
  eexists. split; [vm_compute; reflexivity|]. repeat split.
Qed.

(** ** The other two modes on one record *)

Lemma downloadOne_incomplete (env : Env) (file : File) (w : World)
  (src : Provider) :
  sourceStore (mig w) = Some src ->
  Complete file = false ->
  downloadOne file w = (Ok tt, w).
Proof.
  intros Hs Hc. unfold downloadOne, bind, getM. rewrite Hs. simpl.
  rewrite Hc. reflexivity.
Qed.

Lemma uploadOne_incomplete (env : Env) (root : string) (file : File)
  (w : World) (dst : Provider) :
  destinationStore (mig w) = Some dst ->
  Complete file = false ->
  uploadOne env root file w =
    (Ok tt, mkWorld (mig w) (db w) (trace w ++ [EvStat (root ++ "/" ++ ID file)])).
Proof.
  intros Hd Hc. unfold uploadOne, bind, getM, emit. simpl.
  destruct (statExists env _); cbn [negb]; [|reflexivity].
  rewrite Hd. simpl. rewrite Hc. reflexivity.
Qed.

(** C9. A record whose upload-completion flag is false is skipped without
    error in each mode: the worker of [MigrateStore] and the worker of
    [DownloadAll] end at their completion send having changed nothing and
    called no collaborator; the loop body of [UploadAll] goes on to the next
    record having only looked for the staged file.  No fetch, no push, no
    catalog update; the catalog is as before. *)
Theorem C9_incomplete_record_is_skipped (env : Env) (file : File)
  (w : World) :
  Complete file = false ->
  (forall src, sourceStore (mig w) = Some src ->
     migrateOne env file w = (Ok tt, w) /\
     downloadOne file w = (Ok tt, w)) /\
  (forall dst root, destinationStore (mig w) = Some dst ->
     exists w',
       uploadOne env root file w = (Ok tt, w') /\
       db w' = db w /\ mig w' = mig w /\
       trace w' = (trace w ++ [EvStat (root ++ "/" ++ ID file)])%list /\
       filter isTransfer (trace w') = filter isTransfer (trace w)).
Proof.
  intro Hc. split.
  - intros src Hs. split.
    + exact (migrateOne_incomplete env file w src Hs Hc).
    + exact (downloadOne_incomplete env file w src Hs Hc).
  - intros dst root Hd. eexists. split.
    + exact (uploadOne_incomplete env root file w dst Hd Hc).
    + simpl. repeat split. rewrite filter_app. simpl. apply app_nil_r.
Qed.

Lemma C9_witness :
  (forall src,
     sourceStore (mig (sample.ready (Some sample.s3) (Some sample.gcs) false
                         [sample.fpart])) = Some src ->
     migrateOne (sample.environ None) sample.fpart
       (sample.ready (Some sample.s3) (Some sample.gcs) false [sample.fpart])
     = (Ok tt,
        sample.ready (Some sample.s3) (Some sample.gcs) false [sample.fpart])
     /\
     downloadOne sample.fpart
       (sample.ready (Some sample.s3) (Some sample.gcs) false [sample.fpart])
     = (Ok tt,
        sample.ready (Some sample.s3) (Some sample.gcs) false [sample.fpart]))
  /\
  (forall dst root,
     destinationStore
       (mig (sample.ready (Some sample.s3) (Some sample.gcs) false
               [sample.fpart])) = Some dst ->
     exists w',
       uploadOne (sample.environ None) root sample.fpart
         (sample.ready (Some sample.s3) (Some sample.gcs) false
            [sample.fpart]) = (Ok tt, w') /\
       db w' = sample.catalog [sample.fpart] /\
       mig w' = mig (sample.ready (Some sample.s3) (Some sample.gcs) false
                       [sample.fpart]) /\
       trace w' = ([] ++ [EvStat (root ++ "/" ++ "part")])%list /\
       filter isTransfer (trace w') = filter isTransfer []).
Proof.
  apply (C9_incomplete_record_is_skipped (sample.environ None) sample.fpart
           (sample.ready (Some sample.s3) (Some sample.gcs) false
              [sample.fpart])).
  reflexivity.
Defined.

(** ** The start of [MigrateStore] *)

(** [getFiles] only connects, reads the setting and queries: whatever it
    returns, the catalog is as before and no transfer event was added; and it
    panics only on a nil source binding. *)
Lemma getFiles_no_transfer (env : Env) (w : World) :
  db (snd (getFiles env w)) = db w /\
  filter isTransfer (trace (snd (getFiles env w)))
    = filter isTransfer (trace w) /\
  (forall v, fst (getFiles env w) = Panic v -> sourceStore (mig w) = None).
Proof.
  unfold getFiles, bind, getM, modM, emit, getDB, deref, liftErr, ret, fail,
    panic.
  destruct (String.eqb (storeName (mig w)) "");
    [simpl; repeat split; discriminate|].
  destruct (String.eqb (storeName (mig w)) "Uploads");
    [|destruct (String.eqb (storeName (mig w)) "Avatars");
      [|simpl; repeat split; discriminate]];
    simpl;
    (destruct (connectDB env (connectionString (mig w)));
       [simpl; rewrite filter_app, app_nil_r; repeat split; discriminate|]);
    simpl;
    (destruct (setting_uniqueID (db w));
       [|simpl; rewrite !filter_app, !app_nil_r; repeat split; discriminate]);
    simpl;
    (destruct (sourceStore (mig w));
       [|simpl; rewrite !filter_app, !app_nil_r; repeat split; reflexivity]);
    simpl;
    (destruct (findError env) as [e|];
       [destruct (isErrNoDocuments e); simpl;
        rewrite !filter_app, !app_nil_r; repeat split; discriminate|]);
    (destruct (cursorError env); simpl;
       rewrite !filter_app, !app_nil_r; repeat split; discriminate).
Qed.

(** C7, as amended.  With MAX_CONCURRENCY set to a value [Atoi] rejects,
    [MigrateStore] returns an error before the channels exist: no worker is
    launched, no fetch, push or catalog update has happened and the catalog is
    as before.  The value is parsed after [getFiles]: with both roles bound
    and [getFiles] succeeding, the error is the parse error and the world is
    the one [getFiles] left, with the connection, the namespace read and the
    candidate query done. *)
Theorem C7_rejected_limit_fails_before_transfers (env : Env) (w : World)
  (v : string) (e : error) :
  MAX_CONCURRENCY env = Some v ->
  strconv.Atoi v = inl e ->
  exists e' w',
    MigrateStore_setup env w = (Err e', w') /\
    db w' = db w /\
    filter isTransfer (trace w') = filter isTransfer (trace w) /\
    (forall src dst files w1,
       sourceStore (mig w) = Some src ->
       destinationStore (mig w) = Some dst ->
       getFiles env w = (Ok files, w1) -> e' = e /\ w' = w1).
Proof.
  intros Hv Ha.
  destruct (getFiles_no_transfer env w) as (Hdb & Htr & Hp).
  unfold MigrateStore_setup, bind, getM. simpl.
  destruct (sourceStore (mig w)) as [src|] eqn:Hs;
    [destruct (destinationStore (mig w)) as [dst|] eqn:Hd|].
  - destruct (getFiles env w) as [[files|e0|pv] w1] eqn:Hg; simpl in *.
    + rewrite Hv, Ha. simpl. exists e, w1.
      split; [reflexivity|]. split; [exact Hdb|]. split; [exact Htr|].
      intros src' dst' files' w1' _ _ Heq.
      injection Heq as _ Heq. now split.
    + exists e0, w1. repeat split; auto; intros; discriminate.
    + specialize (Hp pv eq_refl). discriminate.
  - eexists. eexists. split; [reflexivity|]. repeat split; intros;
      discriminate.
  - eexists. eexists. split; [reflexivity|]. repeat split; intros;
      discriminate.
Qed.

Lemma C7_witness :
  exists e' w',
    MigrateStore_setup (sample.environ (Some "abc"))
      (sample.start (Some sample.s3) (Some sample.gcs) false [sample.fa])
    = (Err e', w') /\
    db w' = sample.catalog [sample.fa] /\
    filter isTransfer (trace w') = filter isTransfer [] /\
    (forall src dst files w1,
       Some sample.s3 = Some src ->
       Some sample.gcs = Some dst ->
       getFiles (sample.environ (Some "abc"))
         (sample.start (Some sample.s3) (Some sample.gcs) false [sample.fa])
       = (Ok files, w1) -> e' = ErrNum "abc" /\ w' = w1).
Proof.
  apply (C7_rejected_limit_fails_before_transfers
           (sample.environ (Some "abc"))
           (sample.start (Some sample.s3) (Some sample.gcs) false [sample.fa])
           "abc" (ErrNum "abc"));
    reflexivity.
Defined.

(** C7 as stated fails: with MAX_CONCURRENCY=abc and a reachable catalog, the
    run is rejected with the parse error only after the catalog connection,
    the namespace read and the candidate query. *)
Lemma C7_counterexample :
  let w0 :=
    sample.start (Some sample.s3) (Some sample.gcs) false [sample.fa] in
  let r := MigrateStore_setup (sample.environ (Some "abc")) w0 in
  strconv.Atoi "abc" = inl (ErrNum "abc") /\
  fst r = Err (ErrNum "abc") /\
  trace (snd r) =
    [EvConnect "mongodb://localhost";
     EvFindOne "rocketchat_settings" "uniqueID";
     EvFind "rocketchat_uploads" (mkQuery "AmazonS3:Uploads" None)] /\
  trace (snd r) <> trace w0.
Proof.
  cbv zeta. repeat split; try reflexivity. discriminate.
Qed.

(** ** The scheduler *)

Section Scheduler.

Variable env : Env.
Variable files : list File.
Variable n : Z.

Lemma step_drained_one (a : action) (s s' : state) :
  drained_one s -> step env files n a s = Some s' -> drained_one s'.
Proof.
  unfold step, drained_one. intros I H.
  destruct (dead s); [discriminate|].
  destruct a as [|j| |j|j].
  - destruct (pc s) as [i|i|i| | |r]; try discriminate.
    + destruct (i <? length files)%nat;
        [destruct (Z.of_nat i =? n)%Z|];
        injection H as <-; exact Logic.I.
    + destruct (nth_error files i); [|discriminate].
      injection H as <-. exact Logic.I.
  - destruct (nth_error (workers s) j) as [[f| |e|v| |]|] eqn:Hj;
      try discriminate.
    destruct (pc s) as [i|i|i| | |r]; try discriminate;
      injection H as <-; simpl; [exact Logic.I|].
    now apply existsb_update_new with (y := SendingDone).
  - destruct (pc s) as [i|i|i| | |r]; try discriminate.
    destruct (lis s); try discriminate.
    injection H as <-. simpl. auto.
  - destruct (nth_error (workers s) j) as [[f| |e|v| |]|] eqn:Hj;
      try discriminate.
    destruct (migrateOne env f (world s)) as [r w'].
    injection H as <-. simpl.
    destruct (pc s) as [i|i|i| | |r0]; try exact Logic.I.
    + now apply existsb_update_keep with (y := Running f).
    + destruct I as (Hr & Hl & Hf). repeat split; auto.
      now apply existsb_update_keep with (y := Running f).
  - destruct (nth_error (workers s) j) as [[f| |e|v| |]|] eqn:Hj;
      try discriminate.
    destruct (lis s) eqn:Hl; try discriminate.
    injection H as <-. simpl.
    destruct (pc s) as [i|i|i| | |r0]; try exact Logic.I.
    + now apply existsb_update_keep with (y := SendingErr e).
    + destruct I as (_ & Hx & _). discriminate.
Qed.

Lemma run_drained_one (sch : list action) (s s' : state) :
  drained_one s -> run env files n sch s = Some s' -> drained_one s'.
Proof.
  revert s; induction sch as [|a sch IH]; intros s I H; simpl in H.
  - injection H as <-. exact I.
  - destruct (step env files n a s) as [s1|] eqn:E; [|discriminate].
    apply (IH s1); [|exact H]. exact (step_drained_one a s s1 I E).
Qed.

End Scheduler.

(** With no candidate the scheduler launches nothing and stays blocked in the
    receive after the loop. *)
Lemma run_no_files (env : Env) (n : Z) (sch : list action) (s st : state) :
  workers s = [] -> lis s = Listening ->
  pc s = AtLoop 0 \/ pc s = AtDrain ->
  run env [] n sch s = Some st ->
  workers st = [] /\ lis st = Listening /\
  (pc st = AtLoop 0 \/ pc st = AtDrain).
Proof.
  revert s; induction sch as [|a sch IH]; intros s Hw Hl Hp H; simpl in H.
  - injection H as <-. auto.
  - destruct (step env [] n a s) as [s1|] eqn:E; [|discriminate].
    apply (IH s1); try exact H; revert E; unfold step, dead;
      rewrite Hw, Hl; simpl;
      destruct a as [|j| |j|j]; simpl;
      try (destruct j; discriminate);
      destruct Hp as [-> | ->]; try discriminate;
      intro E; injection E as <-; simpl; auto.
Qed.

(** C1 on the failing input: MAX_CONCURRENCY=1 and three completed records.
    After the first worker's completion signal the loop launches the second
    and the third worker without another wait: two transfers are in flight
    under a limit of one, and the third worker was launched with one earlier
    worker completed, not two. *)
Theorem C1_limit_one_two_in_flight :
  exists w' st,
    MigrateStore_setup (sample.environ (Some "1"))
      (sample.start (Some sample.s3) (Some sample.gcs) false
         [sample.fa; sample.fb; sample.fc])
    = (Ok ([sample.fa; sample.fb; sample.fc], 1%Z), w') /\
    run (sample.environ (Some "1")) [sample.fa; sample.fb; sample.fc] 1
      sample.three_launched (init w') = Some st /\
    inFlight st = 2 /\ launched st = 3 /\ completed st = 1 /\
    dead st = false.
Proof.
  eexists. eexists.
  split; [vm_compute; reflexivity|]. split; [vm_compute; reflexivity|].
  repeat split.
Qed.

(** C6 on the failing input: a catalog with no matching record and a query
    that succeeds.  [getFiles] returns the empty list and no error, the setup
    of [MigrateStore] succeeds, and in every schedule the run launches no
    worker, reports no error and never returns: it stays blocked in the
    receive after the loop. *)
Theorem C6_no_candidates_is_not_an_error :
  exists w',
    MigrateStore_setup (sample.environ None)
      (sample.start (Some sample.s3) (Some sample.gcs) false [])
    = (Ok ([], 1%Z), w') /\
    forall sch st,
      run (sample.environ None) [] 1 sch (init w') = Some st ->
      workers st = [] /\ lis st = Listening /\
      (forall r, pc st <> Returned r) /\ pc st <> AtRelease.
Proof.
  exists (snd (MigrateStore_setup (sample.environ None)
                 (sample.start (Some sample.s3) (Some sample.gcs) false []))).
  split; [vm_compute; reflexivity|].
  intros sch st H.
  destruct (run_no_files _ _ _ (init _) _ eq_refl eq_refl
              (or_introl eq_refl) H) as (Hw & Hl & Hp).
  repeat split; auto.
  - intros r Hr. destruct Hp as [Hp|Hp]; rewrite Hp in Hr; discriminate.
  - intro Hr. destruct Hp as [Hp|Hp]; rewrite Hp in Hr; discriminate.
Qed.

(** * Further properties of the engine *)

(** ** Store name, offset and candidate selection *)

(** [getFiles] with a store name other than Uploads and Avatars returns its
    validation error at once: nothing was dialled or read and the receiver is
    as it was. *)
Theorem getFiles_rejects_unknown_store (env : Env) (w : World) :
  storeName (mig w) <> "Uploads" ->
  storeName (mig w) <> "Avatars" ->
  getFiles env w =
    (Err (ErrNew (if String.eqb (storeName (mig w)) ""
                  then "no store Name" else "Invalid store Name")), w).
Proof.
  intros Hu Ha. unfold getFiles, bind, getM, fail.
  destruct (String.eqb (storeName (mig w)) ""); [reflexivity|].
  rewrite (eqb_false_of_neq _ _ Hu), (eqb_false_of_neq _ _ Ha).
  reflexivity.
Qed.

Lemma getFiles_rejects_unknown_store_witness :
  getFiles (sample.environ None)
    (mkWorld (setters.setStoreName
                (sample.config (Some sample.s3) None false) "uploads")
       (sample.catalog [sample.fa]) []) =
    (Err (ErrNew (if String.eqb "uploads" ""
                  then "no store Name" else "Invalid store Name")),
     mkWorld (setters.setStoreName
                (sample.config (Some sample.s3) None false) "uploads")
       (sample.catalog [sample.fa]) []).
Proof.
  apply (getFiles_rejects_unknown_store (sample.environ None)
           (mkWorld (setters.setStoreName
                       (sample.config (Some sample.s3) None false) "uploads")
              (sample.catalog [sample.fa]) []));
    discriminate.
Defined.

(** A store name [SetStoreName] accepted passes the validation of [getFiles]:
    whatever [getFiles] then returns, it has dialled the catalog and resolved
    the collection rocketchat_{name in lower case}; and every temporary
    directory [SetStoreName] handed to a provider is
    {tempFileLocation}/{name in lower case}. *)
Theorem SetStoreName_then_getFiles (env : Env) (m m' : Migrate)
  (name : string) (calls : list (setters.role * string)) (d : MongoDB)
  (tr : list event) :
  setters.SetStoreName m name = (None, m', calls) ->
  (name = "Uploads" \/ name = "Avatars") /\
  (forall r dir, In (r, dir) calls ->
     dir = tempFileLocation m ++ "/" ++ strings.ToLower name) /\
  fileCollectionName (mig (snd (getFiles env (mkWorld m' d tr))))
    = "rocketchat_" ++ strings.ToLower name /\
  exists tl,
    trace (snd (getFiles env (mkWorld m' d tr)))
      = (tr ++ EvConnect (connectionString m) :: tl)%list.
Proof.
  unfold setters.SetStoreName. intro H.
  destruct (String.eqb_spec name "Uploads") as [Eu|Nu];
    [|destruct (String.eqb_spec name "Avatars") as [Ea|Na]];
    simpl in H; try discriminate;
    injection H as <- <-; subst name.
  - split; [now left|]. split.
    { intros r dir Hin. simpl in Hin.
      destruct (sourceStore m), (destinationStore m); simpl in Hin;
        repeat match goal with
               | H : _ \/ _ |- _ => destruct H
               | H : False |- _ => contradiction
               | H : (_, _) = (_, _) |- _ => injection H as _ <-
               end; reflexivity. }
    unfold getFiles, bind, getM, modM, emit, getDB, deref, liftErr, ret,
      fail, panic. simpl.
    destruct (connectDB env (connectionString m)); simpl;
      [split; [reflexivity|]; eexists; reflexivity|].
    destruct (setting_uniqueID d); simpl;
      [|split; [reflexivity|]; eexists; rewrite <- app_assoc; reflexivity].
    destruct (sourceStore m); simpl;
      [|split; [reflexivity|]; eexists; rewrite <- app_assoc; reflexivity].
    destruct (findError env) as [e|];
      [destruct (isErrNoDocuments e)|destruct (cursorError env)]; simpl;
      (split; [reflexivity|]); eexists; rewrite <- !app_assoc; reflexivity.
  - split; [now right|]. split.
    { intros r dir Hin. simpl in Hin.
      destruct (sourceStore m), (destinationStore m); simpl in Hin;
        repeat match goal with
               | H : _ \/ _ |- _ => destruct H
               | H : False |- _ => contradiction
               | H : (_, _) = (_, _) |- _ => injection H as _ <-
               end; reflexivity. }
    unfold getFiles, bind, getM, modM, emit, getDB, deref, liftErr, ret,
      fail, panic. simpl.
    destruct (connectDB env (connectionString m)); simpl;
      [split; [reflexivity|]; eexists; reflexivity|].
    destruct (setting_uniqueID d); simpl;
      [|split; [reflexivity|]; eexists; rewrite <- app_assoc; reflexivity].
    destruct (sourceStore m); simpl;
      [|split; [reflexivity|]; eexists; rewrite <- app_assoc; reflexivity].
    destruct (findError env) as [e|];
      [destruct (isErrNoDocuments e)|destruct (cursorError env)]; simpl;
      (split; [reflexivity|]); eexists; rewrite <- !app_assoc; reflexivity.
Qed.

Lemma SetStoreName_then_getFiles_witness :
  ("Avatars" = "Uploads" \/ "Avatars" = "Avatars") /\
  (forall r dir,
     In (r, dir) [(setters.Source, "/tmp/avatars");
                  (setters.Destination, "/tmp/avatars")] ->
     dir = "/tmp" ++ "/" ++ strings.ToLower "Avatars") /\
  fileCollectionName
    (mig (snd (getFiles (sample.environ None)
                 (mkWorld
                    (setters.setStoreName
                       (sample.config (Some sample.s3) (Some sample.gcs)
                          false) "Avatars")
                    (sample.catalog []) []))))
    = "rocketchat_" ++ strings.ToLower "Avatars" /\
  exists tl,
    trace (snd (getFiles (sample.environ None)
                  (mkWorld
                     (setters.setStoreName
                        (sample.config (Some sample.s3) (Some sample.gcs)
                           false) "Avatars")
                     (sample.catalog []) [])))
      = ([] ++ EvConnect "mongodb://localhost" :: tl)%list.
Proof.
  apply (SetStoreName_then_getFiles (sample.environ None)
           (sample.config (Some sample.s3) (Some sample.gcs) false)
           (setters.setStoreName
              (sample.config (Some sample.s3) (Some sample.gcs) false)
              "Avatars")
           "Avatars"
           [(setters.Source, "/tmp/avatars");
            (setters.Destination, "/tmp/avatars")]
           (sample.catalog []) []).
  reflexivity.
Defined.

(** When [getFiles] returns candidates, they are exactly the documents of the
    resolved collection whose backend descriptor is {source-kind}:{category}
    and, when an offset is set, whose upload time is at or after it; the
    namespace it resolved is the catalog's uniqueID setting, and the catalog
    is as it was. *)
Theorem getFiles_candidates (env : Env) (w w' : World) (files : list File)
  (src : Provider) :
  sourceStore (mig w) = Some src ->
  getFiles env w = (Ok files, w') ->
  db w' = db w /\
  setting_uniqueID (db w) = Some (uniqueID (mig w')) /\
  fileCollectionName (mig w')
    = "rocketchat_" ++ strings.ToLower (storeName (mig w)) /\
  forall g,
    In g files <->
    In g (Collection (db w) (fileCollectionName (mig w'))) /\
    Store g = StoreType src ++ ":" ++ storeName (mig w) /\
    (fileOffset (mig w) = 0%Z \/ (fileOffset (mig w) <= UploadedAt g)%Z).
Proof.
  intros Hs H.
  destruct (getFiles_ok env w w' files src Hs H) as [Hf Hdb].
  split; [exact Hdb|].
  assert (Hst : setting_uniqueID (db w) = Some (uniqueID (mig w')) /\
                fileCollectionName (mig w')
                  = "rocketchat_" ++ strings.ToLower (storeName (mig w))).
  { clear Hf Hdb. unfold getFiles in H. unfold bind at 1 in H.
    unfold getM at 1 in H.
    destruct (String.eqb (storeName (mig w)) ""); [discriminate|].
    unfold bind at 1 in H.
    destruct (String.eqb_spec (storeName (mig w)) "Uploads") as [Eu|Nu];
      [|destruct (String.eqb_spec (storeName (mig w)) "Avatars")
          as [Ea|Na]; [|discriminate]];
      unfold ret at 1 in H; unfold bind, modM, emit, getDB in H;
      simpl in H;
      (destruct (connectDB env (connectionString (mig w)));
         [discriminate|]);
      simpl in H;
      (destruct (setting_uniqueID (db w)); [|discriminate]); simpl in H;
      rewrite Hs in H; simpl in H;
      (destruct (findError env) as [e|];
         [destruct (isErrNoDocuments e); discriminate|]);
      (destruct (cursorError env); [discriminate|]); simpl in H;
      injection H as _ Hw; subst w'; simpl;
      [rewrite Eu | rewrite Ea]; split; reflexivity. }
  destruct Hst as [Hu Hc]. split; [exact Hu|]. split; [exact Hc|].
  intro g. rewrite Hf, filter_In. unfold matches. simpl.
  rewrite andb_true_iff, String.eqb_eq.
  destruct (Z.eqb_spec (fileOffset (mig w)) 0) as [E0|N0].
  - intuition.
  - rewrite Z.leb_le. intuition.
Qed.

Lemma getFiles_candidates_witness :
  db (snd (getFiles (sample.environ None)
             (sample.start (Some sample.s3) None false
                [sample.fa_gcs; sample.fb]))) = sample.catalog
                [sample.fa_gcs; sample.fb] /\
  Some "NS" = Some (uniqueID (mig (snd (getFiles (sample.environ None)
             (sample.start (Some sample.s3) None false
                [sample.fa_gcs; sample.fb]))))) /\
  fileCollectionName (mig (snd (getFiles (sample.environ None)
             (sample.start (Some sample.s3) None false
                [sample.fa_gcs; sample.fb]))))
    = "rocketchat_" ++ strings.ToLower "Uploads" /\
  forall g,
    In g [sample.fb] <->
    In g (Collection (sample.catalog [sample.fa_gcs; sample.fb])
            (fileCollectionName (mig (snd (getFiles (sample.environ None)
               (sample.start (Some sample.s3) None false
                  [sample.fa_gcs; sample.fb])))))) /\
    Store g = "AmazonS3" ++ ":" ++ "Uploads" /\
    (0%Z = 0%Z \/ (0 <= UploadedAt g)%Z).
Proof.
  apply (getFiles_candidates (sample.environ None)
           (sample.start (Some sample.s3) None false
              [sample.fa_gcs; sample.fb])
           (snd (getFiles (sample.environ None)
                   (sample.start (Some sample.s3) None false
                      [sample.fa_gcs; sample.fb])))
           [sample.fb] sample.s3);
    reflexivity.
Defined.

(** [SetFileOffset] refuses the zero time and leaves the receiver as it was;
    an offset it accepted bounds the selection: every candidate of a later
    [getFiles] was uploaded at or after it. *)
Theorem SetFileOffset_bounds_candidates (env : Env) (m m' : Migrate)
  (t : Z) (err : option error) (d : MongoDB) (tr : list event)
  (w' : World) (files : list File) :
  setters.SetFileOffset m t = (err, m') ->
  (t = 0%Z -> err = Some (ErrNew "invalid date") /\ m' = m) /\
  (err = None ->
   getFiles env (mkWorld m' d tr) = (Ok files, w') ->
   forall g, In g files -> (t <= UploadedAt g)%Z).
Proof.
  unfold setters.SetFileOffset. intro H.
  destruct (Z.eqb_spec t 0) as [E0|N0]; injection H as <- <-.
  - split; [auto|]. discriminate.
  - split; [intro; contradiction|].
    intros _ Hg g Hin.
    destruct (sourceStore m) as [src|] eqn:Hs.
    + destruct (getFiles_ok env
                  (mkWorld (setters.setFileOffset m t) d tr) w' files src
                  Hs Hg) as (Hf & _).
      rewrite Hf in Hin. apply filter_In in Hin. destruct Hin as [_ Hm].
      unfold matches in Hm. simpl in Hm.
      apply andb_prop in Hm. destruct Hm as [_ Hm].
      destruct (Z.eqb_spec t 0); [contradiction|].
      now apply Z.leb_le.
    + exfalso. clear Hin. revert Hg.
      unfold getFiles, bind, getM, modM, emit, getDB, deref, liftErr, ret,
        fail, panic. simpl.
      destruct (String.eqb (storeName m) ""); [discriminate|].
      destruct (String.eqb (storeName m) "Uploads");
        [|destruct (String.eqb (storeName m) "Avatars"); [|discriminate]];
        simpl;
        (destruct (connectDB env (connectionString m)); [discriminate|]);
        simpl;
        (destruct (setting_uniqueID d); [|discriminate]); simpl;
        rewrite Hs; discriminate.
Qed.

Lemma SetFileOffset_bounds_candidates_witness :
  (5%Z = 0%Z ->
   (None : option error) = Some (ErrNew "invalid date") /\
   setters.setFileOffset (sample.config (Some sample.s3) None false) 5
     = sample.config (Some sample.s3) None false) /\
  ((None : option error) = None ->
   getFiles (sample.environ None)
     (mkWorld (setters.setFileOffset
                 (sample.config (Some sample.s3) None false) 5)
        (sample.catalog [sample.fa]) [])
   = (Ok [sample.fa],
      snd (getFiles (sample.environ None)
             (mkWorld (setters.setFileOffset
                         (sample.config (Some sample.s3) None false) 5)
                (sample.catalog [sample.fa]) []))) ->
   forall g, In g [sample.fa] -> (5 <= UploadedAt g)%Z).
Proof.
  apply (SetFileOffset_bounds_candidates (sample.environ None)
           (sample.config (Some sample.s3) None false)
           (setters.setFileOffset
              (sample.config (Some sample.s3) None false) 5)
           5 None (sample.catalog [sample.fa]) []).
  reflexivity.
Defined.

(** ** The catalog under the worker of [MigrateStore] *)

Lemma replaceByID_ids (id : string) (file : File) (l : list File) :
  ID file = id -> map ID (replaceByID id file l) = map ID l.
Proof.
  intro H. induction l as [|g l IH]; simpl; [reflexivity|].
  destruct (String.eqb_spec (ID g) id) as [E|N]; simpl.
  - now rewrite H, E.
  - now rewrite IH.
Qed.

Lemma replaceByID_other (id : string) (file g : File) (l : list File) :
  ID file = id -> ID g <> id ->
  (In g (replaceByID id file l) <-> In g l).
Proof.
  intros H Hg. induction l as [|x l IH]; simpl; [reflexivity|].
  destruct (String.eqb_spec (ID x) id) as [E|N]; simpl.
  - split; intros [Hx|Hx]; auto; exfalso; subst; congruence.
  - rewrite IH. reflexivity.
Qed.

(** Reading a collection back after it was written: the written list under
    the two collection names the catalog has, nothing changed otherwise. *)
Lemma Collection_withCollection (d : MongoDB) (name c : string)
  (l : list File) :
  Collection (withCollection d name l) c =
    if String.eqb c name
       && (String.eqb name "rocketchat_uploads"
           || String.eqb name "rocketchat_avatars")
    then l else Collection d c.
Proof.
  unfold Collection, withCollection.
  destruct (String.eqb_spec name "rocketchat_uploads") as [Eu|Nu];
    [subst name|
     destruct (String.eqb_spec name "rocketchat_avatars") as [Ea|Na];
     [subst name|]]; simpl.
  - destruct (String.eqb_spec c "rocketchat_uploads"); simpl; reflexivity.
  - destruct (String.eqb_spec c "rocketchat_uploads") as [E|N]; simpl.
    + subst c. reflexivity.
    + destruct (String.eqb_spec c "rocketchat_avatars"); reflexivity.
  - now rewrite andb_false_r.
Qed.

Lemma sameButID_refl (id : string) (d : MongoDB) : sameButID id d d.
Proof. split; [reflexivity|]. intro c. split; reflexivity. Qed.

Lemma sameButID_write (d : MongoDB) (name : string) (file : File) :
  sameButID (ID file) d
    (withCollection d name (replaceByID (ID file) file (Collection d name))).
Proof.
  split.
  - unfold withCollection.
    destruct (String.eqb name "rocketchat_uploads");
      [|destruct (String.eqb name "rocketchat_avatars")]; reflexivity.
  - intro c. rewrite Collection_withCollection.
    destruct (String.eqb_spec c name) as [E|N]; simpl;
      [|split; reflexivity].
    destruct (String.eqb name "rocketchat_uploads"
              || String.eqb name "rocketchat_avatars");
      [|split; reflexivity].
    subst c. split.
    + now apply replaceByID_ids.
    + intros g Hg. now apply replaceByID_other.
Qed.

Lemma UpdateOne_frame (env : Env) (file : File) (unset : string)
  (w : World) :
  sameButID (ID file) (db w) (db (snd (UpdateOne env file unset w))) /\
  mig (snd (UpdateOne env file unset w)) = mig w.
Proof.
  unfold UpdateOne, bind, getM, emit, getDB, putDB, fail. simpl.
  destruct (updateError env file); simpl.
  - split; [apply sameButID_refl | reflexivity].
  - split; [apply sameButID_write | reflexivity].
Qed.

Lemma fixFileForUpload_ID (file f' : File) (path unset : string)
  (w w' : World) :
  fixFileForUpload file path w = (Ok (f', unset), w') -> ID f' = ID file.
Proof.
  destruct (destinationStore (mig w)) as [dst|] eqn:Hd.
  - rewrite (fixFileForUpload_eq _ _ _ _ Hd). cbv zeta. intro H.
    injection H as <- _ _.
    destruct (String.eqb (StoreType dst) "AmazonS3");
      [|destruct (String.eqb (StoreType dst) "GoogleCloudStorage")];
      reflexivity.
  - unfold fixFileForUpload, bind, getM, deref, panic. rewrite Hd.
    discriminate.
Qed.

Lemma migrateOne_frame (env : Env) (file : File) (w : World) :
  sameButID (ID file) (db w) (db (snd (migrateOne env file w))) /\
  mig (snd (migrateOne env file w)) = mig w.
Proof.
  destruct (sourceStore (mig w)) as [src|] eqn:Hs.
  2:{ unfold migrateOne, bind, getM, deref, panic. rewrite Hs. simpl.
      split; [apply sameButID_refl | reflexivity]. }
  destruct (Complete file) eqn:Hc.
  2:{ rewrite (migrateOne_incomplete env file w src Hs Hc). simpl.
      split; [apply sameButID_refl | reflexivity]. }
  destruct (Download src (fileCollectionName (mig w)) file) as [lp [e|]]
    eqn:Hdl.
  { rewrite (migrateOne_fetch_failed env file w src lp e Hs Hc Hdl). simpl.
    split; [apply sameButID_refl | reflexivity]. }
  destruct (destinationStore (mig w)) as [dst|] eqn:Hd.
  2:{ unfold migrateOne, getObjectPath, bind, getM, deref, emit, panic, ret.
      rewrite Hs, Hc. simpl. rewrite Hdl. simpl. rewrite Hd. simpl.
      split; [apply sameButID_refl | reflexivity]. }
  destruct (migrateOne_fetched env file w src dst lp Hs Hd Hc Hdl)
    as (p & f' & unset & _ & Hfix & E).
  cbv zeta in E. rewrite E.
  destruct (Upload dst p lp (Type_ file)); simpl.
  { split; [apply sameButID_refl | reflexivity]. }
  pose proof (fixFileForUpload_ID _ _ _ _ _ _ Hfix) as Hid.
  rewrite withDefaults_ID in Hid. rewrite <- Hid.
  match goal with
  | |- context [UpdateOne env f' unset ?x] =>
      exact (UpdateOne_frame env f' unset x)
  end.
Qed.

(** Whatever the worker of [MigrateStore] does for a record, and however it
    ends, it leaves the receiver and the namespace setting as they were, it
    adds, removes or reorders no document of any collection, and it changes
    no document whose id is not the record's. *)
Theorem migrateOne_catalog_frame (env : Env) (file : File) (w : World) :
  mig (snd (migrateOne env file w)) = mig w /\
  setting_uniqueID (db (snd (migrateOne env file w)))
    = setting_uniqueID (db w) /\
  forall c,
    map ID (Collection (db (snd (migrateOne env file w))) c)
      = map ID (Collection (db w) c) /\
    forall g, ID g <> ID file ->
      (In g (Collection (db (snd (migrateOne env file w))) c)
       <-> In g (Collection (db w) c)).
Proof.
  destruct (migrateOne_frame env file w) as [[Hs Hc] Hm].
  split; [exact Hm|]. split; [exact Hs|]. exact Hc.
Qed.

(** After a successful fetch, a failed push and a failed catalog update are
    both sent on the error channel, whatever the skip flag is; the catalog is
    left as it was, and after a failed push no update is attempted. *)
Theorem push_or_update_failure_is_fatal (env : Env) (file : File)
  (w : World) (src dst : Provider) (lp : string) :
  sourceStore (mig w) = Some src ->
  destinationStore (mig w) = Some dst ->
  Complete file = true ->
  Download src (fileCollectionName (mig w)) file = (lp, None) ->
  exists p f' unset,
    getObjectPath (withDefaults (mig w) file) w = (Ok p, w) /\
    fixFileForUpload (withDefaults (mig w) file) p w = (Ok (f', unset), w) /\
    (forall e, Upload dst p lp (Type_ file) = Some e ->
       migrateOne env file w =
         (Err e,
          mkWorld (mig w) (db w)
            (trace w ++ [EvDownload (fileCollectionName (mig w)) (ID file);
                         EvUpload p lp (Type_ file)]))) /\
    (forall e, Upload dst p lp (Type_ file) = None ->
       updateError env f' = Some e ->
       migrateOne env file w =
         (Err e,
          mkWorld (mig w) (db w)
            (trace w ++ [EvDownload (fileCollectionName (mig w)) (ID file);
                         EvUpload p lp (Type_ file);
                         EvUpdateOne (fileCollectionName (mig w)) (ID f') f'
                           unset]))).
Proof.
  intros Hs Hd Hc Hdl.
  destruct (migrateOne_fetched env file w src dst lp Hs Hd Hc Hdl)
    as (p & f' & unset & Hp & Hfix & E).
  exists p, f', unset. split; [exact Hp|]. split; [exact Hfix|].
  cbv zeta in E. split.
  - intros e He. rewrite E, He. reflexivity.
  - intros e Hup He. rewrite E, Hup.
    unfold UpdateOne, bind, getM, emit, fail. simpl. rewrite He. simpl.
    rewrite <- app_assoc. reflexivity.
Qed.

(** [fixFileForUpload] is idempotent: run again on its own output with the
    same path, it returns the same record and the same name to unset; and it
    never changes the id, name, content type, room, user, completion flag or
    upload time of the record. *)
Theorem fixFileForUpload_idempotent (file f' : File) (path unset : string)
  (w w' : World) :
  fixFileForUpload file path w = (Ok (f', unset), w') ->
  fixFileForUpload f' path w = (Ok (f', unset), w) /\
  ID f' = ID file /\ Name f' = Name file /\ Type_ f' = Type_ file /\
  Rid f' = Rid file /\ UserID f' = UserID file /\
  Complete f' = Complete file /\ UploadedAt f' = UploadedAt file.
Proof.
  destruct (destinationStore (mig w)) as [dst|] eqn:Hd.
  - rewrite !(fixFileForUpload_eq _ _ _ _ Hd). cbv zeta. intro H.
    injection H as <- <- _.
    destruct file as [i nm ty r u c t st url pth a3 gs].
    destruct (String.eqb (StoreType dst) "AmazonS3");
      [|destruct (String.eqb (StoreType dst) "GoogleCloudStorage")];
      simpl; repeat split; reflexivity.
  - unfold fixFileForUpload, bind, getM, deref, panic. rewrite Hd.
    discriminate.
Qed.

Lemma push_or_update_failure_is_fatal_witness :
  exists p f' unset,
    getObjectPath (withDefaults (mig (sample2.ready_full true)) sample.fa_gcs)
      (sample2.ready_full true) = (Ok p, sample2.ready_full true) /\
    fixFileForUpload
      (withDefaults (mig (sample2.ready_full true)) sample.fa_gcs) p
      (sample2.ready_full true) = (Ok (f', unset), sample2.ready_full true) /\
    (forall e,
       Upload sample2.full p "/tmp/uploads/a" (Type_ sample.fa_gcs) = Some e ->
       migrateOne (sample.environ None) sample.fa_gcs
         (sample2.ready_full true) =
         (Err e,
          mkWorld (mig (sample2.ready_full true))
            (db (sample2.ready_full true))
            (trace (sample2.ready_full true)
             ++ [EvDownload
                   (fileCollectionName (mig (sample2.ready_full true)))
                   (ID sample.fa_gcs);
                 EvUpload p "/tmp/uploads/a" (Type_ sample.fa_gcs)]))) /\
    (forall e,
       Upload sample2.full p "/tmp/uploads/a" (Type_ sample.fa_gcs) = None ->
       updateError (sample.environ None) f' = Some e ->
       migrateOne (sample.environ None) sample.fa_gcs
         (sample2.ready_full true) =
         (Err e,
          mkWorld (mig (sample2.ready_full true))
            (db (sample2.ready_full true))
            (trace (sample2.ready_full true)
             ++ [EvDownload
                   (fileCollectionName (mig (sample2.ready_full true)))
                   (ID sample.fa_gcs);
                 EvUpload p "/tmp/uploads/a" (Type_ sample.fa_gcs);
                 EvUpdateOne
                   (fileCollectionName (mig (sample2.ready_full true)))
                   (ID f') f' unset]))).
Proof.
  apply (push_or_update_failure_is_fatal (sample.environ None) sample.fa_gcs
           (sample2.ready_full true) sample.gcs sample2.full
           "/tmp/uploads/a");
    reflexivity.
Defined.

Lemma fixFileForUpload_idempotent_witness :
  fixFileForUpload sample.fa_gcs "NS/uploads/room1/user1/a"
    (sample.ready (Some sample.s3) (Some sample.gcs) false [sample.fa])
  = (Ok (sample.fa_gcs, "AmazonS3"),
     sample.ready (Some sample.s3) (Some sample.gcs) false [sample.fa]) /\
  ID sample.fa_gcs = ID sample.fa /\ Name sample.fa_gcs = Name sample.fa /\
  Type_ sample.fa_gcs = Type_ sample.fa /\
  Rid sample.fa_gcs = Rid sample.fa /\
  UserID sample.fa_gcs = UserID sample.fa /\
  Complete sample.fa_gcs = Complete sample.fa /\
  UploadedAt sample.fa_gcs = UploadedAt sample.fa.
Proof.
  apply (fixFileForUpload_idempotent sample.fa sample.fa_gcs
           "NS/uploads/room1/user1/a" "AmazonS3"
           (sample.ready (Some sample.s3) (Some sample.gcs) false [sample.fa])
           (sample.ready (Some sample.s3) (Some sample.gcs) false
              [sample.fa])).
  reflexivity.
Defined.

(** With a [GridFSProvider] as destination the push cannot fail
    ([Upload] returns nil without doing anything): for a completed record
    whose fetch succeeds the worker always reaches the catalog update, and
    when that succeeds the record is recorded as stored in GridFS, its
    AmazonS3 and GoogleStorage sub-fields left as they were and none named
    for removal. *)
Theorem gridfs_destination_is_recorded (g : GridFSProvider) (env : Env)
  (file : File) (w : World) (src : Provider) (lp : string) :
  sourceStore (mig w) = Some src ->
  destinationStore (mig w) = Some (gridfs g) ->
  Complete file = true ->
  Download src (fileCollectionName (mig w)) file = (lp, None) ->
  exists p f',
    fixFileForUpload (withDefaults (mig w) file) p w = (Ok (f', ""), w) /\
    Store f' = "GridFS:" ++ storeName (mig w) /\
    AmazonS3_ f' = AmazonS3_ file /\
    GoogleStorage_ f' = GoogleStorage_ file /\
    trace (snd (migrateOne env file w)) =
      (trace w ++ [EvDownload (fileCollectionName (mig w)) (ID file);
                   EvUpload p lp (Type_ file);
                   EvUpdateOne (fileCollectionName (mig w)) (ID file) f' ""])
      %list /\
    (updateError env f' = None ->
     fst (migrateOne env file w) = Ok tt /\
     db (snd (migrateOne env file w)) =
       withCollection (db w) (fileCollectionName (mig w))
         (replaceByID (ID file) f'
            (Collection (db w) (fileCollectionName (mig w))))).
Proof.
  intros Hs Hd Hc Hdl.
  destruct (migrateOne_fetched env file w src (gridfs g) lp Hs Hd Hc Hdl)
    as (p & f' & unset & _ & Hfix & E).
  cbv zeta in E. simpl Upload in E.
  pose proof Hfix as Hfix'.
  rewrite (fixFileForUpload_eq _ _ _ _ Hd) in Hfix'. cbv zeta in Hfix'.
  simpl in Hfix'. injection Hfix' as Hf' Hu. subst unset.
  assert (Hid : ID f' = ID file).
  { rewrite <- Hf'. simpl. apply withDefaults_ID. }
  exists p, f'. split; [exact Hfix|].
  split; [rewrite <- Hf'; reflexivity|].
  split.
  { rewrite <- Hf'. simpl. unfold withDefaults.
    destruct (String.eqb (Rid file) "" && _); simpl;
      destruct (String.eqb (UserID _) ""); reflexivity. }
  split.
  { rewrite <- Hf'. simpl. unfold withDefaults.
    destruct (String.eqb (Rid file) "" && _); simpl;
      destruct (String.eqb (UserID _) ""); reflexivity. }
  rewrite E. unfold UpdateOne, bind, getM, emit, getDB, putDB, fail. simpl.
  rewrite Hid.
  destruct (updateError env f'); simpl; rewrite <- app_assoc; simpl.
  - split; [reflexivity|]. discriminate.
  - split; [reflexivity|]. intros _. split; reflexivity.
Qed.

Lemma gridfs_destination_is_recorded_witness :
  exists p f',
    fixFileForUpload
      (withDefaults
         (mig (sample.ready (Some sample.s3)
                 (Some (gridfs (mkGridFS "rocketchat" "/tmp"))) false
                 [sample.fa])) sample.fa) p
      (sample.ready (Some sample.s3)
         (Some (gridfs (mkGridFS "rocketchat" "/tmp"))) false [sample.fa])
    = (Ok (f', ""),
       sample.ready (Some sample.s3)
         (Some (gridfs (mkGridFS "rocketchat" "/tmp"))) false [sample.fa]) /\
    Store f' = "GridFS:" ++ "Uploads" /\
    AmazonS3_ f' = AmazonS3_ sample.fa /\
    GoogleStorage_ f' = GoogleStorage_ sample.fa /\
    trace (snd (migrateOne (sample.environ None) sample.fa
                  (sample.ready (Some sample.s3)
                     (Some (gridfs (mkGridFS "rocketchat" "/tmp"))) false
                     [sample.fa]))) =
      ([] ++ [EvDownload "rocketchat_uploads" "a";
              EvUpload p "/tmp/uploads/a" "image/png";
              EvUpdateOne "rocketchat_uploads" "a" f' ""])%list /\
    (updateError (sample.environ None) f' = None ->
     fst (migrateOne (sample.environ None) sample.fa
            (sample.ready (Some sample.s3)
               (Some (gridfs (mkGridFS "rocketchat" "/tmp"))) false
               [sample.fa])) = Ok tt /\
     db (snd (migrateOne (sample.environ None) sample.fa
                (sample.ready (Some sample.s3)
                   (Some (gridfs (mkGridFS "rocketchat" "/tmp"))) false
                   [sample.fa]))) =
       withCollection (sample.catalog [sample.fa]) "rocketchat_uploads"
         (replaceByID "a" f'
            (Collection (sample.catalog [sample.fa]) "rocketchat_uploads"))).
Proof.
  apply (gridfs_destination_is_recorded (mkGridFS "rocketchat" "/tmp")
           (sample.environ None) sample.fa
           (sample.ready (Some sample.s3)
              (Some (gridfs (mkGridFS "rocketchat" "/tmp"))) false
              [sample.fa])
           sample.s3 "/tmp/uploads/a");
    reflexivity.
Defined.

(** ** [UploadAll] *)

(** Without a source binding [getFiles] cannot return candidates: its query
    is built from the source kind. *)
Lemma getFiles_needs_source (env : Env) (w : World) :
  sourceStore (mig w) = None ->
  (forall files, fst (getFiles env w) <> Ok files) /\
  (forall s v,
     storeName (mig w) = "Uploads" \/ storeName (mig w) = "Avatars" ->
     connectDB env (connectionString (mig w)) = inr s ->
     setting_uniqueID (db w) = Some v ->
     fst (getFiles env w)
       = Panic "invalid memory address or nil pointer dereference").
Proof.
  intro Hs.
  unfold getFiles, bind, getM, modM, emit, getDB, deref, liftErr, ret, fail,
    panic.
  split.
  - intros files.
    destruct (String.eqb (storeName (mig w)) ""); [discriminate|].
    destruct (String.eqb (storeName (mig w)) "Uploads");
      [|destruct (String.eqb (storeName (mig w)) "Avatars");
        [|discriminate]];
      simpl;
      (destruct (connectDB env (connectionString (mig w)));
         [discriminate|]);
      simpl; (destruct (setting_uniqueID (db w)); [|discriminate]); simpl;
      rewrite Hs; discriminate.
  - intros s v Hn Hc Hu.
    destruct Hn as [Hn|Hn]; rewrite Hn; simpl; rewrite Hc; simpl;
      rewrite Hu; simpl; rewrite Hs; reflexivity.
Qed.

(** [UploadAll] with a destination but no source bound never gets to its
    loop: it returns an error of the first steps or panics, no record is
    pushed or updated and the catalog is as it was; with a valid store name,
    a dial that succeeds and the namespace setting present, it panics on the
    nil source. *)
Theorem UploadAll_without_source (env : Env) (root : string) (w : World)
  (dst : Provider) :
  sourceStore (mig w) = None ->
  destinationStore (mig w) = Some dst ->
  (forall u, fst (UploadAll env root w) <> Ok u) /\
  db (snd (UploadAll env root w)) = db w /\
  filter isTransfer (trace (snd (UploadAll env root w)))
    = filter isTransfer (trace w) /\
  (forall s v,
     storeName (mig w) = "Uploads" \/ storeName (mig w) = "Avatars" ->
     connectDB env (connectionString (mig w)) = inr s ->
     setting_uniqueID (db w) = Some v ->
     fst (UploadAll env root w)
       = Panic "invalid memory address or nil pointer dereference").
Proof.
  intros Hs Hd.
  destruct (getFiles_needs_source env w Hs) as [Hno Hpanic].
  destruct (getFiles_no_transfer env w) as (Hdb & Htr & _).
  assert (E : UploadAll env root w =
              match getFiles env w with
              | (Ok files, w') =>
                  forEach
                    (uploadOne env
                       (root ++ "/" ++ strings.ToLower (storeName (mig w))))
                    files w'
              | (Err e, w') => (Err e, w')
              | (Panic v, w') => (Panic v, w')
              end).
  { unfold UploadAll. unfold bind at 1. unfold getM at 1. rewrite Hd.
    unfold bind at 1. reflexivity. }
  rewrite E.
  destruct (getFiles env w) as [[files|e|v] w'] eqn:Hg; simpl in *.
  - exfalso. now apply (Hno files).
  - repeat split; auto; try discriminate.
    intros s v Hn Hc Hu. specialize (Hpanic s v Hn Hc Hu). discriminate.
  - repeat split; auto; try discriminate.
    intros s v0 Hn Hc Hu. specialize (Hpanic s v0 Hn Hc Hu).
    injection Hpanic as ->. reflexivity.
Qed.

Lemma UploadAll_without_source_witness :
  (forall u,
     fst (UploadAll (sample.environ None) "/data"
            (sample.start None (Some sample.gcs) false [sample.fa]))
     <> Ok u) /\
  db (snd (UploadAll (sample.environ None) "/data"
             (sample.start None (Some sample.gcs) false [sample.fa])))
    = sample.catalog [sample.fa] /\
  filter isTransfer
    (trace (snd (UploadAll (sample.environ None) "/data"
                   (sample.start None (Some sample.gcs) false [sample.fa]))))
    = filter isTransfer [] /\
  (forall s v,
     "Uploads" = "Uploads" \/ "Uploads" = "Avatars" ->
     connectDB (sample.environ None) "mongodb://localhost" = inr s ->
     Some "NS" = Some v ->
     fst (UploadAll (sample.environ None) "/data"
            (sample.start None (Some sample.gcs) false [sample.fa]))
       = Panic "invalid memory address or nil pointer dereference").
Proof.
  apply (UploadAll_without_source (sample.environ None) "/data"
           (sample.start None (Some sample.gcs) false [sample.fa])
           sample.gcs);
    reflexivity.
Defined.

(** The loop body of [UploadAll] on a record that is staged and completed,
    with the destination bound: it computes the path of the record as read,
    pushes the staged file, and on success mutates the record and updates the
    catalog. *)
Lemma uploadOne_staged (env : Env) (root : string) (file : File)
  (w : World) (dst : Provider) :
  destinationStore (mig w) = Some dst ->
  statExists env (root ++ "/" ++ ID file) = true ->
  Complete file = true ->
  exists p f' unset,
    getObjectPath file w = (Ok p, w) /\
    fixFileForUpload file p w = (Ok (f', unset), w) /\
    let w2 :=
      mkWorld (mig w) (db w)
        (trace w ++ [EvStat (root ++ "/" ++ ID file);
                     EvUpload p (root ++ "/" ++ ID file) (Type_ file)]) in
    uploadOne env root file w =
      match Upload dst p (root ++ "/" ++ ID file) (Type_ file) with
      | Some e => (Err e, w2)
      | None => UpdateOne env f' unset w2
      end.
Proof.
  intros Hd Hst Hc.
  set (loc := root ++ "/" ++ ID file) in *.
  set (w1 := mkWorld (mig w) (db w) (trace w ++ [EvStat loc])).
  assert (Hd1 : destinationStore (mig w1) = Some dst) by exact Hd.
  pose proof (getObjectPath_eq file w1 dst Hd1) as Hp1.
  pose proof (getObjectPath_eq file w dst Hd) as Hp.
  simpl mig in Hp1.
  set (p := if String.eqb (StoreType dst) "FileSystem" then _ else _) in *.
  set (w2 := mkWorld (mig w) (db w) (trace w1 ++ [EvUpload p loc (Type_ file)])).
  assert (Hd2 : destinationStore (mig w2) = Some dst) by exact Hd.
  pose proof (fixFileForUpload_eq file p w2 dst Hd2) as Hfix2.
  pose proof (fixFileForUpload_eq file p w dst Hd) as Hfix.
  simpl mig in Hfix2. cbv zeta in Hfix, Hfix2.
  exists p. eexists. eexists.
  split; [exact Hp|]. split; [rewrite Hfix; reflexivity|].
  assert (Hw2 : w2 = mkWorld (mig w) (db w)
                       (trace w ++ [EvStat loc; EvUpload p loc (Type_ file)])).
  { unfold w2, w1. simpl. rewrite <- app_assoc. reflexivity. }
  cbv zeta. rewrite <- Hw2.
  unfold uploadOne. unfold bind at 1. unfold getM at 1.
  unfold bind at 1. unfold emit at 1. fold loc. rewrite Hst. cbn [negb].
  unfold bind at 1. rewrite Hd. unfold deref at 1, ret at 1.
  rewrite Hc. cbn [negb].
  unfold bind at 1. fold w1. rewrite Hp1.
  unfold bind at 1. unfold emit at 1. fold w2.
  unfold bind at 1.
  destruct (Upload dst p loc (Type_ file)); unfold liftErr.
  - reflexivity.
  - unfold ret at 1. unfold bind at 1.
    match goal with
    | |- context [fixFileForUpload file p ?x] => change x with w2
    end.
    rewrite Hfix2. reflexivity.
Qed.

(** What one pass of the loop body can do: it keeps the receiver, fetches
    nothing, and changes at most the document of the record's id. *)
Lemma uploadOne_frame (env : Env) (root : string) (file : File) (w : World) :
  mig (snd (uploadOne env root file w)) = mig w /\
  sameButID (ID file) (db w) (db (snd (uploadOne env root file w))) /\
  filter isDownload (trace (snd (uploadOne env root file w)))
    = filter isDownload (trace w).
Proof.
  destruct (statExists env (root ++ "/" ++ ID file)) eqn:Hst.
  2:{ unfold uploadOne, bind, getM, emit. simpl.
      change (root ++ String "/" (ID file)) with (root ++ "/" ++ ID file).
      rewrite Hst. simpl. split; [reflexivity|].
      split; [apply sameButID_refl|].
      rewrite filter_app. simpl. apply app_nil_r. }
  destruct (destinationStore (mig w)) as [dst|] eqn:Hd.
  2:{ unfold uploadOne, bind, getM, emit, deref, panic. simpl.
      change (root ++ String "/" (ID file)) with (root ++ "/" ++ ID file).
      rewrite Hst, Hd. simpl. split; [reflexivity|].
      split; [apply sameButID_refl|].
      rewrite filter_app. simpl. apply app_nil_r. }
  destruct (Complete file) eqn:Hc.
  2:{ rewrite (uploadOne_incomplete env root file w dst Hd Hc). simpl.
      split; [reflexivity|]. split; [apply sameButID_refl|].
      rewrite filter_app. simpl. apply app_nil_r. }
  destruct (uploadOne_staged env root file w dst Hd Hst Hc)
    as (p & f' & unset & _ & Hfix & E).
  cbv zeta in E. rewrite E.
  destruct (Upload dst p (root ++ "/" ++ ID file) (Type_ file)); simpl.
  { split; [reflexivity|]. split; [apply sameButID_refl|].
    rewrite filter_app. simpl. apply app_nil_r. }
  pose proof (fixFileForUpload_ID _ _ _ _ _ _ Hfix) as Hid. rewrite <- Hid.
  match goal with
  | |- context [UpdateOne env f' unset ?x] =>
      destruct (UpdateOne_frame env f' unset x) as [Hf Hm]
  end.
  split; [exact Hm|]. split; [exact Hf|].
  unfold UpdateOne, bind, getM, emit, getDB, putDB, fail. simpl.
  destruct (updateError env f'); simpl;
    rewrite !filter_app; simpl; rewrite !app_nil_r; reflexivity.
Qed.

Lemma UploadAll_eq (env : Env) (root : string) (w : World) (dst : Provider) :
  destinationStore (mig w) = Some dst ->
  UploadAll env root w =
    match getFiles env w with
    | (Ok files, w') =>
        forEach
          (uploadOne env (root ++ "/" ++ strings.ToLower (storeName (mig w))))
          files w'
    | (Err e, w') => (Err e, w')
    | (Panic v, w') => (Panic v, w')
    end.
Proof.
  intro Hd. unfold UploadAll. unfold bind at 1. unfold getM at 1.
  rewrite Hd. unfold bind at 1. reflexivity.
Qed.

Lemma forEach_app (body : File -> Run unit) (a b : list File) (w : World) :
  forEach body (a ++ b) w =
    match forEach body a w with
    | (Ok _, w1) => forEach body b w1
    | (Err e, w1) => (Err e, w1)
    | (Panic v, w1) => (Panic v, w1)
    end.
Proof.
  revert w; induction a as [|f a IH]; intro w; simpl; [reflexivity|].
  unfold bind. destruct (body f w) as [[u|e|v] w1]; [apply IH | | ];
    reflexivity.
Qed.

(** The loop of [UploadAll] returns at the first record whose push or update
    fails: with the candidates [pre ++ f :: post], the records of [pre]
    handled without error and [f] failing with [e], [UploadAll] returns [e]
    in the world the failing pass left, so the records of [post] are neither
    looked for, pushed nor updated, and what was done for [pre] stands. *)
Theorem UploadAll_stops_at_first_error (env : Env) (root : string)
  (w w0 w1 w2 : World) (dst : Provider) (pre post : list File) (f : File)
  (e : error) :
  destinationStore (mig w) = Some dst ->
  getFiles env w = (Ok (pre ++ f :: post)%list, w0) ->
  forEach (uploadOne env (root ++ "/" ++ strings.ToLower (storeName (mig w))))
    pre w0 = (Ok tt, w1) ->
  uploadOne env (root ++ "/" ++ strings.ToLower (storeName (mig w))) f w1
    = (Err e, w2) ->
  UploadAll env root w = (Err e, w2).
Proof.
  intros Hd Hg Hpre Hf.
  rewrite (UploadAll_eq env root w dst Hd), Hg, forEach_app, Hpre.
  cbn [forEach]. unfold bind. rewrite Hf. reflexivity.
Qed.

Lemma forEach_uploadOne_frame (env : Env) (root : string)
  (files : list File) (w : World) :
  mig (snd (forEach (uploadOne env root) files w)) = mig w /\
  setting_uniqueID (db (snd (forEach (uploadOne env root) files w)))
    = setting_uniqueID (db w) /\
  (forall c,
     map ID (Collection (db (snd (forEach (uploadOne env root) files w))) c)
     = map ID (Collection (db w) c)) /\
  filter isDownload (trace (snd (forEach (uploadOne env root) files w)))
    = filter isDownload (trace w).
Proof.
  revert w; induction files as [|f files IH]; intro w; simpl.
  - repeat split; reflexivity.
  - unfold bind.
    destruct (uploadOne_frame env root f w) as (Hm & [Hs Hc] & Ht).
    destruct (uploadOne env root f w) as [[u|e|v] w1]; simpl in *.
    + destruct (IH w1) as (Hm1 & Hs1 & Hc1 & Ht1).
      split; [congruence|]. split; [congruence|]. split; [|congruence].
      intro c. rewrite Hc1. exact (proj1 (Hc c)).
    + repeat split; auto. intro c. exact (proj1 (Hc c)).
    + repeat split; auto. intro c. exact (proj1 (Hc c)).
Qed.

(** However [UploadAll] ends, it has fetched nothing from a source, and the
    catalog has the namespace setting and, in every collection, the documents
    with the ids it had, in the same order: records are rewritten in place,
    never added or removed. *)
Theorem UploadAll_keeps_documents (env : Env) (root : string) (w : World) :
  setting_uniqueID (db (snd (UploadAll env root w)))
    = setting_uniqueID (db w) /\
  (forall c,
     map ID (Collection (db (snd (UploadAll env root w))) c)
     = map ID (Collection (db w) c)) /\
  filter isDownload (trace (snd (UploadAll env root w)))
    = filter isDownload (trace w).
Proof.
  destruct (destinationStore (mig w)) as [dst|] eqn:Hd.
  2:{ unfold UploadAll, bind, getM, fail. rewrite Hd. simpl.
      repeat split; reflexivity. }
  rewrite (UploadAll_eq env root w dst Hd).
  destruct (getFiles_no_transfer env w) as (Hdb & Htr & _).
  assert (Hdl : filter isDownload (trace (snd (getFiles env w)))
                = filter isDownload (trace w)).
  { assert (F : forall l, filter isDownload l
                          = filter isDownload (filter isTransfer l)).
    { induction l as [|x l IHl]; simpl; [reflexivity|].
      destruct x; simpl; rewrite <- IHl; reflexivity. }
    rewrite F, Htr, <- F. reflexivity. }
  set (root' := root ++ "/" ++ strings.ToLower (storeName (mig w))).
  destruct (getFiles env w) as [[files|e|v] w'] eqn:Hg;
    cbn [fst snd] in *.
  - destruct (forEach_uploadOne_frame env root' files w')
      as (_ & Hs1 & Hc1 & Ht1).
    split; [rewrite Hs1, Hdb; reflexivity|].
    split; [|rewrite Ht1; exact Hdl].
    intro c. rewrite Hc1, Hdb. reflexivity.
  - rewrite Hdb. repeat split; auto.
  - rewrite Hdb. repeat split; auto.
Qed.

Lemma UploadAll_stops_at_first_error_witness :
  UploadAll (sample.environ None) "/data" sample2.up0
    = (Err (ErrOther "quota"), sample2.up3).
Proof.
  apply (UploadAll_stops_at_first_error (sample.environ None) "/data"
           sample2.up0 sample2.up1 sample2.up2 sample2.up3 sample2.full
           [sample2.gp] [sample2.gr] sample2.gq (ErrOther "quota"));
    vm_compute; reflexivity.
Defined.

(** ** The binding checks of the three modes *)

(** Each mode checks its provider bindings first: [MigrateStore] needs both,
    [DownloadAll] the source, [UploadAll] the destination.  When the check
    fails the mode returns its error with nothing dialled, read or changed. *)
Theorem modes_require_their_roles (env : Env) (root : string) (w : World) :
  (sourceStore (mig w) = None \/ destinationStore (mig w) = None ->
   MigrateStore_setup env w =
     (Err (ErrNew
        "For MigrateStore both a source and destionation store must be provided"),
      w)) /\
  (sourceStore (mig w) = None ->
   downloader.DownloadAll_setup env w =
     (Err (ErrNew "For DownloadAll must have a source store provided"), w)) /\
  (destinationStore (mig w) = None ->
   UploadAll env root w =
     (Err (ErrNew "For UploadAll must have a destination store provided"),
      w)).
Proof.
  unfold MigrateStore_setup, downloader.DownloadAll_setup, UploadAll, bind,
    getM, fail.
  repeat split.
  - intros [H|H]; rewrite H; [|destruct (sourceStore (mig w))]; reflexivity.
  - intros ->. reflexivity.
  - intros ->. reflexivity.
Qed.

(** ** The scheduler of [MigrateStore]: what every run satisfies *)

Lemma length_update (l : list worker) (j : nat) (x : worker) :
  length (update j x l) = length l.
Proof.
  revert j; induction l as [|a l IH]; intros [|j]; simpl; auto.
Qed.

Lemma count_update_same (p : worker -> bool) (l : list worker) (j : nat)
  (x y : worker) :
  nth_error l j = Some y -> p y = p x ->
  length (filter p (update j x l)) = length (filter p l).
Proof.
  revert j; induction l as [|a l IH]; intros [|j] H E; simpl in *;
    try discriminate.
  - injection H as ->. rewrite E. destruct (p x); reflexivity.
  - destruct (p a); simpl; rewrite (IH j H E); reflexivity.
Qed.

Lemma count_update_gain (p : worker -> bool) (l : list worker) (j : nat)
  (x y : worker) :
  nth_error l j = Some y -> p y = false -> p x = true ->
  length (filter p (update j x l)) = S (length (filter p l)).
Proof.
  revert j; induction l as [|a l IH]; intros [|j] H Ey Ex; simpl in *;
    try discriminate.
  - injection H as ->. rewrite Ey, Ex. reflexivity.
  - destruct (p a); simpl; rewrite (IH j H Ey Ex); reflexivity.
Qed.

Lemma count_snoc (p : worker -> bool) (l : list worker) (x : worker) :
  p x = false -> length (filter p (l ++ [x])) = length (filter p l).
Proof.
  intro H. rewrite filter_app. simpl. rewrite H, app_nil_r. reflexivity.
Qed.

Lemma update_running (l : list worker) (j k : nat) (x : worker) (f : File) :
  isRunning x = false ->
  nth_error (update j x l) k = Some (Running f) ->
  nth_error l k = Some (Running f).
Proof.
  intro Hx. revert j k; induction l as [|a l IH]; intros [|j] [|k] H;
    simpl in *; try discriminate; auto.
  - injection H as ->. discriminate.
  - now apply (IH j k).
Qed.

Lemma running_finished_le (l : list worker) :
  (length (filter isRunning l) + length (filter isFinished l) <= length l)%nat.
Proof.
  induction l as [|a l IH]; simpl; [lia|].
  destruct a; simpl; lia.
Qed.

Lemma afterWork_not_running (r : result unit) :
  isRunning (afterWork r) = false.
Proof. destruct r; reflexivity. Qed.

Lemma afterWork_not_finished (r : result unit) :
  isFinished (afterWork r) = false.
Proof. destruct r; reflexivity. Qed.

Lemma snoc_running (l : list worker) (x : File) (j : nat) (f : File) :
  nth_error (l ++ [Running x]) j = Some (Running f) ->
  nth_error l j = Some (Running f) \/ (j = length l /\ f = x).
Proof.
  intro H. destruct (Nat.lt_ge_cases j (length l)) as [Hlt|Hge].
  - left. now rewrite nth_error_app1 in H.
  - right. rewrite nth_error_app2 in H by exact Hge.
    destruct (j - length l)%nat as [|k] eqn:E; simpl in H.
    + injection H as ->. split; [lia | reflexivity].
    + destruct k; discriminate.
Qed.

Lemma step_sched_inv (env : Env) (files : list File) (n : Z) (a : action)
  (s s' : state) :
  sched_inv files n s -> step env files n a s = Some s' ->
  sched_inv files n s'.
Proof.
  unfold step, sched_inv, received. intros [HA HB] H.
  destruct (dead s); [discriminate|].
  destruct a as [|j| |j|j].
  - destruct (pc s) as [i|i|i| | |r] eqn:Hpc; try discriminate.
    + destruct (Nat.ltb_spec i (length files)) as [Hlt|Hge].
      * destruct (Z.eqb_spec (Z.of_nat i) n) as [En|Nn];
          injection H as <-; simpl; (split; [exact HA|]);
          destruct HB as (Hl & Hi & [[Hr Hn]|[Hr Hn]]);
          repeat split; auto; lia.
      * injection H as <-. simpl. split; [exact HA|].
        destruct HB as (Hl & Hi & [[Hr Hn]|[Hr Hn]]).
        -- split; [lia|]. left. split; [exact Hr|].
           intro H0. specialize (Hn H0). lia.
        -- split; [lia|]. right. split; [exact Hr|]. lia.
    + destruct (nth_error files i) as [f|] eqn:Hf; [|discriminate].
      injection H as <-. simpl.
      destruct HB as (Hl & Hi & HB). split.
      * intros j f0 Hj. apply snoc_running in Hj.
        destruct Hj as [Hj|[-> ->]]; [now apply HA|].
        now rewrite Hl.
      * rewrite length_app,
          (count_snoc isFinished (workers s) (Running f) eq_refl). simpl.
        split; [lia|]. split; [lia|].
        destruct HB as [[Hr Hn]|[Hr Hn]].
        -- left. split; [exact Hr|]. intro H0. specialize (Hn H0). lia.
        -- right. split; [exact Hr|]. lia.
  - destruct (nth_error (workers s) j) as [[f| |e|v| |]|] eqn:Hj;
      try discriminate.
    destruct (pc s) as [i|i|i| | |r] eqn:Hpc; try discriminate;
      injection H as <-; simpl;
      rewrite length_update,
        (count_update_gain isFinished _ _ Finished _ Hj eq_refl eq_refl);
      (split; [intros k f0 Hk; apply HA;
               now apply (update_running _ j k Finished)|]).
    + destruct HB as (Hl & Hi & Hr & Hn).
      split; [exact Hl|]. split; [exact Hi|]. right. split; [lia|lia].
    + destruct HB as (Hl & [[Hr Hn]|[Hr Hn]]); (split; [exact Hl|]).
      * left. split; [lia|exact Hn].
      * right. split; [lia|exact Hn].
  - destruct (pc s) as [i|i|i| | |r] eqn:Hpc; try discriminate.
    destruct (lis s); try discriminate.
    injection H as <-. simpl. split; [exact HA|exact HB].
  - destruct (nth_error (workers s) j) as [[f| |e|v| |]|] eqn:Hj;
      try discriminate.
    destruct (migrateOne env f (world s)) as [r w'].
    injection H as <-. simpl.
    rewrite length_update,
      (count_update_same isFinished _ _ (afterWork r) _ Hj
         (eq_sym (afterWork_not_finished r))).
    split; [|exact HB].
    intros k f0 Hk. apply HA.
    now apply (update_running _ j k (afterWork r) f0
                 (afterWork_not_running r)).
  - destruct (nth_error (workers s) j) as [[f| |e|v| |]|] eqn:Hj;
      try discriminate.
    destruct (lis s); try discriminate.
    injection H as <-. simpl.
    rewrite length_update,
      (count_update_same isFinished _ _ Reported _ Hj eq_refl).
    split; [|exact HB].
    intros k f0 Hk. apply HA.
    now apply (update_running _ j k Reported).
Qed.

Lemma run_sched_inv (env : Env) (files : list File) (n : Z)
  (sch : list action) (s s' : state) :
  sched_inv files n s -> run env files n sch s = Some s' ->
  sched_inv files n s'.
Proof.
  revert s; induction sch as [|a sch IH]; intros s I H; simpl in H.
  - injection H as <-. exact I.
  - destruct (step env files n a s) as [s1|] eqn:E; [|discriminate].
    apply (IH s1); [|exact H]. exact (step_sched_inv env files n a s s1 I E).
Qed.

Lemma init_sched_inv (files : list File) (n : Z) (w : World) :
  sched_inv files n (init w).
Proof.
  split.
  - intros [|j] f H; discriminate.
  - simpl. split; [reflexivity|]. split; [lia|]. left. split; [reflexivity|].
    auto.
Qed.

(** In every state of a run of [MigrateStore], at most one worker per
    candidate has been launched, and the worker at position [j] that is
    still transferring is working on the [j]-th candidate: candidates are
    launched in enumeration order, none twice. *)
Theorem MigrateStore_launches_in_order (env : Env) (files : list File)
  (n : Z) (sch : list action) (w : World) (st : state) :
  run env files n sch (init w) = Some st ->
  (launched st <= length files)%nat /\
  forall j f, nth_error (workers st) j = Some (Running f) ->
              nth_error files j = Some f.
Proof.
  intro H.
  destruct (run_sched_inv env files n sch _ _ (init_sched_inv files n w) H)
    as [HA HB].
  split; [|exact HA]. unfold launched.
  destruct (pc st); intuition lia.
Qed.

(** [MigrateStore] receives at most two completion signals in a run: the one
    of the loop, taken only when the limit is between 0 and the number of
    candidates minus one, and the one after the loop.  When it returns,
    every candidate has a worker and exactly that many workers have
    returned, so all the others are still working or blocked in their
    send. *)
Theorem MigrateStore_receives_at_most_two (env : Env) (files : list File)
  (n : Z) (sch : list action) (w : World) (st : state) :
  run env files n sch (init w) = Some st ->
  (received st <= 2)%nat /\
  forall r, pc st = Returned r ->
    launched st = length files /\
    received st =
      if ((0 <=? n)%Z && (n <? Z.of_nat (length files))%Z)%bool
      then 2%nat else 1%nat.
Proof.
  intro H.
  destruct (run_sched_inv env files n sch _ _ (init_sched_inv files n w) H)
    as [_ HB].
  split.
  - destruct (pc st); intuition lia.
  - intros r Hr. rewrite Hr in HB. destruct HB as [Hl HB].
    split; [exact Hl|].
    destruct (Z.leb_spec 0 n), (Z.ltb_spec n (Z.of_nat (length files)));
      simpl; intuition lia.
Qed.

(** With a limit [n >= 0] and at most [n + 1] candidates the limit holds: in
    every state of the run at most [n] transfers are in flight. *)
Theorem MigrateStore_limit_holds_for_few_candidates (env : Env)
  (files : list File) (n : Z) (sch : list action) (w : World) (st : state) :
  (0 <= n)%Z ->
  (Z.of_nat (length files) <= n + 1)%Z ->
  run env files n sch (init w) = Some st ->
  (Z.of_nat (inFlight st) <= n)%Z.
Proof.
  intros Hn Hk H.
  destruct (run_sched_inv env files n sch _ _ (init_sched_inv files n w) H)
    as [_ HB].
  pose proof (running_finished_le (workers st)) as Hle.
  unfold inFlight. unfold received in HB.
  destruct (pc st); intuition lia.
Qed.

Lemma MigrateStore_launches_in_order_witness :
  (launched (sample2.reach 1 sample.three_launched)
   <= length sample2.files3)%nat /\
  forall j f,
    nth_error (workers (sample2.reach 1 sample.three_launched)) j
      = Some (Running f) ->
    nth_error sample2.files3 j = Some f.
Proof.
  apply (MigrateStore_launches_in_order (sample.environ None) sample2.files3
           1 sample.three_launched sample2.ready3).
  vm_compute. reflexivity.
Defined.

Lemma MigrateStore_receives_at_most_two_witness :
  (received (sample2.reach 1 sample2.to_return) <= 2)%nat /\
  forall r, pc (sample2.reach 1 sample2.to_return) = Returned r ->
    launched (sample2.reach 1 sample2.to_return) = length sample2.files3 /\
    received (sample2.reach 1 sample2.to_return) =
      if ((0 <=? 1)%Z && (1 <? Z.of_nat (length sample2.files3))%Z)%bool
      then 2%nat else 1%nat.
Proof.
  apply (MigrateStore_receives_at_most_two (sample.environ None)
           sample2.files3 1 sample2.to_return sample2.ready3).
  vm_compute. reflexivity.
Defined.

Lemma MigrateStore_limit_holds_for_few_candidates_witness :
  (Z.of_nat (inFlight (sample2.reach 2 sample2.third_after_wait)) <= 2)%Z.
Proof.
  apply (MigrateStore_limit_holds_for_few_candidates (sample.environ None)
           sample2.files3 2 sample2.third_after_wait sample2.ready3).
  - lia.
  - simpl. lia.
  - vm_compute. reflexivity.
Defined.

(** With no candidate, or with the limit 0, [MigrateStore] launches no
    worker and never returns: it stays blocked in a receive on [oneDone]
    that no worker will ever meet, with the world as [getFiles] left it. *)
Theorem MigrateStore_blocks_without_launch (env : Env) (files : list File)
  (n : Z) (sch : list action) (w : World) (st : state) :
  files = [] \/ n = 0%Z ->
  run env files n sch (init w) = Some st ->
  workers st = [] /\ lis st = Listening /\ world st = w /\
  (pc st = AtLoop 0 \/ pc st = AtWait 0 \/ pc st = AtDrain).
Proof.
  intros Hc.
  assert (G : forall s,
            workers s = [] -> lis s = Listening -> world s = w ->
            (pc s = AtLoop 0 \/ pc s = AtWait 0 \/ pc s = AtDrain) ->
            run env files n sch s = Some st ->
            workers st = [] /\ lis st = Listening /\ world st = w /\
            (pc st = AtLoop 0 \/ pc st = AtWait 0 \/ pc st = AtDrain)).
  { induction sch as [|a sch IH]; intros s Hw Hl Hwd Hp H; simpl in H.
    - injection H as <-. auto.
    - destruct (step env files n a s) as [s1|] eqn:E; [|discriminate].
      apply (IH s1); try exact H; revert E; unfold step, dead;
        rewrite Hw, Hl; simpl;
        destruct a as [|j| |j|j]; simpl;
        try (destruct j; discriminate);
        destruct Hp as [-> | [-> | ->]]; try discriminate;
        try (destruct j; discriminate);
        (destruct Hc as [-> | ->]; simpl;
         [|destruct (length files)]); simpl;
        intro E; injection E as <-; simpl; auto. }
  intro H. apply (G (init w)); auto.
Qed.

Lemma MigrateStore_blocks_without_launch_witness :
  workers (sample2.reach 0 [Main]) = [] /\
  lis (sample2.reach 0 [Main]) = Listening /\
  world (sample2.reach 0 [Main]) = sample2.ready3 /\
  (pc (sample2.reach 0 [Main]) = AtLoop 0 \/
   pc (sample2.reach 0 [Main]) = AtWait 0 \/
   pc (sample2.reach 0 [Main]) = AtDrain).
Proof.
  apply (MigrateStore_blocks_without_launch (sample.environ None)
           sample2.files3 0 [Main] sample2.ready3).
  - now right.
  - vm_compute. reflexivity.
Defined.

(** ** The scheduler of [DownloadAll] *)

Lemma existsb_update_inv (p : worker -> bool) (l : list worker) (j : nat)
  (x : worker) :
  p x = false -> existsb p (update j x l) = true -> existsb p l = true.
Proof.
  intro Hx. revert j; induction l as [|a l IH]; intros [|j] H; simpl in *;
    try discriminate.
  - rewrite Hx in H. simpl in H. rewrite H. apply orb_true_r.
  - apply orb_true_iff in H. destruct H as [H|H].
    + now rewrite H.
    + rewrite (IH j H). apply orb_true_r.
Qed.

Lemma existsb_snoc_inv (p : worker -> bool) (l : list worker) (x : worker) :
  p x = false -> existsb p (l ++ [x]) = true -> existsb p l = true.
Proof.
  intros Hx H. rewrite existsb_app in H. simpl in H.
  rewrite Hx in H. simpl in H. now rewrite orb_false_r in H.
Qed.

Lemma all_returned_none_reported (l : list worker) :
  forallb downloader.hasReturned l = true ->
  existsb isReported l = false ->
  length (filter isFinished l) = length l.
Proof.
  induction l as [|a l IH]; simpl; [reflexivity|].
  intros H1 H2. apply andb_prop in H1. destruct H1 as [Ha Hl].
  apply orb_false_iff in H2. destruct H2 as [Hr Hr'].
  destruct a; try discriminate; simpl; rewrite (IH Hl Hr'); reflexivity.
Qed.

Lemma step_dl_inv (files : list File) (maxRun : Z) (a : action)
  (s s' : downloader.state) :
  dl_inv files maxRun s -> downloader.step files maxRun a s = Some s' ->
  dl_inv files maxRun s'.
Proof.
  unfold downloader.step, dl_inv, dl_received. intros [HA HB] H.
  destruct (downloader.dead s) eqn:Hdead; [discriminate|].
  assert (Hnr : existsb isReported (downloader.workers s) = false).
  { destruct (existsb isReported (downloader.workers s)) eqn:E;
      [|reflexivity].
    destruct (HA eq_refl) as [e He]. unfold downloader.dead in Hdead.
    rewrite He in Hdead. discriminate. }
  destruct a as [|j| |j|j].
  - destruct (downloader.pc s) as [i|i|i| |r] eqn:Hpc; try discriminate.
    + destruct (Nat.ltb_spec i (length files)) as [Hlt|Hge].
      * destruct (Z.eqb_spec (Z.of_nat i) maxRun) as [En|Nn];
          injection H as <-; simpl; (split; [exact HA|]);
          destruct HB as (Hl & Hi & HB); repeat split; auto; lia.
      * injection H as <-. simpl. split; [exact HA|].
        destruct HB as (Hl & Hi & HB). split; lia.
    + destruct (nth_error files i) as [f|] eqn:Hf; [|discriminate].
      injection H as <-. simpl.
      destruct HB as (Hl & Hi & HB). split.
      * intro E. apply existsb_snoc_inv in E; [now apply HA | reflexivity].
      * rewrite length_app,
          (count_snoc isFinished (downloader.workers s) (Running f) eq_refl).
        simpl. split; [lia|]. split; lia.
    + destruct (forallb downloader.hasReturned (downloader.workers s))
        eqn:Hall; [|discriminate].
      injection H as <-. simpl. split; [exact HA|].
      pose proof (all_returned_none_reported _ Hall Hnr) as Hfin.
      destruct HB as (Hl & HB).
      split; [reflexivity|].
      assert (Hk : length files = 0%nat) by lia.
      split.
      * destruct files; [reflexivity | discriminate].
      * destruct (downloader.workers s); [reflexivity|].
        simpl in Hl. lia.
  - destruct (nth_error (downloader.workers s) j) as [[f| |e|v| |]|] eqn:Hj;
      try discriminate.
    destruct (downloader.pc s) as [i|i|i| |r] eqn:Hpc; try discriminate.
    injection H as <-. simpl.
    rewrite length_update,
      (count_update_gain isFinished _ _ Finished _ Hj eq_refl eq_refl).
    split.
    + intro E. apply existsb_update_inv in E; [now apply HA | reflexivity].
    + destruct HB as (Hl & Hi & Hr & Hn).
      assert (j < length (downloader.workers s))%nat
        by (apply nth_error_Some; rewrite Hj; discriminate).
      split; [exact Hl|]. split; [exact Hi|]. right. lia.
  - discriminate.
  - destruct (nth_error (downloader.workers s) j) as [[f| |e|v| |]|] eqn:Hj;
      try discriminate.
    destruct (downloadOne f (downloader.world s)) as [r w'].
    injection H as <-. simpl.
    rewrite length_update,
      (count_update_same isFinished _ _ (afterWork r) _ Hj
         (eq_sym (afterWork_not_finished r))).
    split.
    { intro E. apply existsb_update_inv in E; [now apply HA|].
      destruct r; reflexivity. }
    destruct (downloader.pc s); try exact HB.
    destruct HB as (Hr & Hf & Hw). rewrite Hw in Hj. destruct j; discriminate.
  - destruct (nth_error (downloader.workers s) j) as [[f| |e|v| |]|] eqn:Hj;
      try discriminate.
    destruct (downloader.lis s); try discriminate.
    injection H as <-. simpl.
    rewrite length_update,
      (count_update_same isFinished _ _ Reported _ Hj eq_refl).
    split; [intros _; now exists e|].
    destruct (downloader.pc s); try exact HB.
    destruct HB as (Hr & Hf & Hw). rewrite Hw in Hj. destruct j; discriminate.
Qed.

Lemma run_dl_inv (files : list File) (maxRun : Z) (sch : list action)
  (s s' : downloader.state) :
  dl_inv files maxRun s -> downloader.run files maxRun sch s = Some s' ->
  dl_inv files maxRun s'.
Proof.
  revert s; induction sch as [|a sch IH]; intros s I H; simpl in H.
  - injection H as <-. exact I.
  - destruct (downloader.step files maxRun a s) as [s1|] eqn:E;
      [|discriminate].
    apply (IH s1); [|exact H]. exact (step_dl_inv files maxRun a s s1 I E).
Qed.

Lemma init_dl_inv (files : list File) (maxRun : Z) (w : World) :
  dl_inv files maxRun (downloader.init w).
Proof.
  split.
  - discriminate.
  - simpl. split; [reflexivity|]. split; [lia|]. now left.
Qed.

(** [DownloadAll] returns only when there is no candidate.  Every worker
    ends in a send on [doneChan] or [errChan]; the only receive on
    [doneChan] is the one of the loop, which is reached at most once and only
    with a worker before it and a candidate after it; so with one candidate
    or more some worker never returns and [wg.Wait()] never does.  With no
    candidate [DownloadAll] returns nil at once. *)
Theorem DownloadAll_returns_only_without_candidates (files : list File)
  (maxRun : Z) (sch : list action) (w : World) (st : downloader.state)
  (r : option error) :
  downloader.run files maxRun sch (downloader.init w) = Some st ->
  downloader.pc st = downloader.DReturned r ->
  files = [] /\ r = None /\ downloader.workers st = [] /\
  downloader.run [] maxRun [Main; Main] (downloader.init w)
    = Some (downloader.mkState (downloader.DReturned None) Listening [] w).
Proof.
  intros H Hr.
  destruct (run_dl_inv files maxRun sch _ _ (init_dl_inv files maxRun w) H)
    as [_ HB].
  rewrite Hr in HB. destruct HB as (H1 & H2 & H3).
  repeat split; auto.
Qed.

Lemma DownloadAll_returns_only_without_candidates_witness :
  ([] : list File) = [] /\ (None : option error) = None /\
  downloader.workers
    (downloader.mkState (downloader.DReturned None) Listening []
       (sample.ready (Some sample.s3) None false [])) = [] /\
  downloader.run [] 1 [Main; Main]
    (downloader.init (sample.ready (Some sample.s3) None false []))
    = Some (downloader.mkState (downloader.DReturned None) Listening []
              (sample.ready (Some sample.s3) None false [])).
Proof.
  apply (DownloadAll_returns_only_without_candidates [] 1 [Main; Main]
           (sample.ready (Some sample.s3) None false [])
           (downloader.mkState (downloader.DReturned None) Listening []
              (sample.ready (Some sample.s3) None false []))
           None);
    reflexivity.
Defined.

(** The worker of [DownloadAll] only fetches: however it ends, the receiver
    and the catalog are as they were and it has pushed and updated
    nothing. *)
Lemma downloadOne_frame (file : File) (w : World) :
  mig (snd (downloadOne file w)) = mig w /\
  db (snd (downloadOne file w)) = db w /\
  filter isWrite (trace (snd (downloadOne file w)))
    = filter isWrite (trace w).
Proof.
  unfold downloadOne, bind, getM, deref, emit, ret, fail, panic.
  destruct (sourceStore (mig w)) as [src|]; simpl; [|auto].
  destruct (Complete file); simpl; [|auto].
  destruct (snd (Download src (fileCollectionName (mig w)) file)) as [e|];
    [destruct (isErrNotFound e || skipErrors (mig w))|]; simpl;
    rewrite filter_app; simpl; rewrite app_nil_r; auto.
Qed.

(** A run of [DownloadAll] is read-only: in every state it reaches, the
    receiver and the catalog are as [getFiles] left them, and nothing was
    pushed to a destination or written to the catalog. *)
Theorem DownloadAll_is_read_only (files : list File) (maxRun : Z)
  (sch : list action) (w : World) (st : downloader.state) :
  downloader.run files maxRun sch (downloader.init w) = Some st ->
  mig (downloader.world st) = mig w /\
  db (downloader.world st) = db w /\
  filter isWrite (trace (downloader.world st)) = filter isWrite (trace w).
Proof.
  assert (G : forall s,
            downloader.run files maxRun sch s = Some st ->
            mig (downloader.world st) = mig (downloader.world s) /\
            db (downloader.world st) = db (downloader.world s) /\
            filter isWrite (trace (downloader.world st))
              = filter isWrite (trace (downloader.world s))).
  { induction sch as [|a sch IH]; intros s H; simpl in H.
    - injection H as <-. auto.
    - destruct (downloader.step files maxRun a s) as [s1|] eqn:E;
        [|discriminate].
      destruct (IH s1 H) as (Hm & Hd & Ht).
      assert (S1 : mig (downloader.world s1) = mig (downloader.world s) /\
                   db (downloader.world s1) = db (downloader.world s) /\
                   filter isWrite (trace (downloader.world s1))
                     = filter isWrite (trace (downloader.world s))).
      { revert E. unfold downloader.step.
        destruct (downloader.dead s); [discriminate|].
        destruct a as [|j| |j|j].
        - destruct (downloader.pc s) as [i|i|i| |r]; try discriminate.
          + destruct (i <? length files)%nat;
              [destruct (Z.of_nat i =? maxRun)%Z|];
              intro E; injection E as <-; auto.
          + destruct (nth_error files i); [|discriminate].
            intro E; injection E as <-; auto.
          + destruct (forallb downloader.hasReturned (downloader.workers s));
              [|discriminate].
            intro E; injection E as <-; auto.
        - destruct (nth_error (downloader.workers s) j)
            as [[f| |e|v| |]|]; try discriminate.
          destruct (downloader.pc s); try discriminate.
          intro E; injection E as <-; auto.
        - discriminate.
        - destruct (nth_error (downloader.workers s) j)
            as [[f| |e|v| |]|]; try discriminate.
          pose proof (downloadOne_frame f (downloader.world s)) as F.
          destruct (downloadOne f (downloader.world s)) as [r w'].
          intro E; injection E as <-. exact F.
        - destruct (nth_error (downloader.workers s) j)
            as [[f| |e|v| |]|]; try discriminate.
          destruct (downloader.lis s); try discriminate.
          intro E; injection E as <-; auto. }
      destruct S1 as (Hm1 & Hd1 & Ht1).
      split; [congruence|]. split; congruence. }
  intro H. exact (G (downloader.init w) H).
Qed.

Lemma DownloadAll_is_read_only_witness :
  mig (downloader.world (sample2.dl_reach sample2.dl_both))
    = mig sample2.dl_ready /\
  db (downloader.world (sample2.dl_reach sample2.dl_both))
    = db sample2.dl_ready /\
  filter isWrite (trace (downloader.world (sample2.dl_reach sample2.dl_both)))
    = filter isWrite (trace sample2.dl_ready).
Proof.
  apply (DownloadAll_is_read_only [sample.fa; sample.fb] 1 sample2.dl_both
           sample2.dl_ready).
  vm_compute. reflexivity.
Defined.

(** The state [sample2.dl_both] leads to: one worker has returned, the other
    is blocked in its completion send, the loop is over, and [wg.Wait()] is
    not enabled. *)
Example DownloadAll_two_candidates_blocked :
  downloader.pc (sample2.dl_reach sample2.dl_both)
    = downloader.DWgWait /\
  downloader.workers (sample2.dl_reach sample2.dl_both)
    = [Finished; SendingDone] /\
  forall a,
    downloader.step [sample.fa; sample.fb] 1 a
      (sample2.dl_reach sample2.dl_both) = None.
Proof.
  split; [vm_compute; reflexivity|]. split; [vm_compute; reflexivity|].
  intros [ |j| |j|j]; try (vm_compute; reflexivity);
    destruct j as [|[|[|j]]]; vm_compute; reflexivity.
Qed.

(** ** The catalog over a whole run of [MigrateStore] *)

Lemma sameOutside_refl (ids : list string) (d : MongoDB) :
  sameOutside ids d d.
Proof. split; [reflexivity|]. intro c. split; reflexivity. Qed.

Lemma sameOutside_trans (ids : list string) (d d1 d2 : MongoDB) :
  sameOutside ids d d1 -> sameOutside ids d1 d2 -> sameOutside ids d d2.
Proof.
  intros [Hs1 Hc1] [Hs2 Hc2]. split; [congruence|].
  intro c. destruct (Hc1 c) as [Hm1 Hi1]. destruct (Hc2 c) as [Hm2 Hi2].
  split; [congruence|].
  intros g Hg. rewrite (Hi2 g Hg). exact (Hi1 g Hg).
Qed.

Lemma sameButID_outside (ids : list string) (id : string) (d d' : MongoDB) :
  In id ids -> sameButID id d d' -> sameOutside ids d d'.
Proof.
  intros Hin [Hs Hc]. split; [exact Hs|].
  intro c. destruct (Hc c) as [Hm Hi]. split; [exact Hm|].
  intros g Hg. apply Hi. intro E. apply Hg. now rewrite E.
Qed.

Lemma step_catalog (env : Env) (files : list File) (n : Z) (a : action)
  (s s' : state) :
  sched_inv files n s -> step env files n a s = Some s' ->
  mig (world s') = mig (world s) /\
  sameOutside (map ID files) (db (world s)) (db (world s')).
Proof.
  intros [HA _]. unfold step.
  destruct (dead s); [discriminate|].
  destruct a as [|j| |j|j].
  - destruct (pc s) as [i|i|i| | |r]; try discriminate.
    + destruct (i <? length files)%nat; [destruct (Z.of_nat i =? n)%Z|];
        intro E; injection E as <-; split;
        [reflexivity | apply sameOutside_refl
        |reflexivity | apply sameOutside_refl
        |reflexivity | apply sameOutside_refl].
    + destruct (nth_error files i); [|discriminate].
      intro E; injection E as <-. split;
        [reflexivity | apply sameOutside_refl].
  - destruct (nth_error (workers s) j) as [[f| |e|v| |]|]; try discriminate.
    destruct (pc s); try discriminate; intro E; injection E as <-;
      split; try reflexivity; apply sameOutside_refl.
  - destruct (pc s); try discriminate.
    destruct (lis s); try discriminate.
    intro E; injection E as <-. split;
      [reflexivity | apply sameOutside_refl].
  - destruct (nth_error (workers s) j) as [[f| |e|v| |]|] eqn:Hj;
      try discriminate.
    destruct (migrateOne_frame env f (world s)) as [Hf Hm].
    destruct (migrateOne env f (world s)) as [r w'].
    intro E; injection E as <-. simpl in *. split; [exact Hm|].
    apply (sameButID_outside _ (ID f)); [|exact Hf].
    apply in_map. exact (nth_error_In _ _ (HA j f Hj)).
  - destruct (nth_error (workers s) j) as [[f| |e|v| |]|]; try discriminate.
    destruct (lis s); try discriminate.
    intro E; injection E as <-. split;
      [reflexivity | apply sameOutside_refl].
Qed.

(** Over a whole run of [MigrateStore], whatever the schedule and however
    the workers end: the receiver and the namespace setting stay as
    [getFiles] left them, no document is added to, removed from or moved in
    any collection, and a document whose id is not a candidate's is never
    changed. *)
Theorem MigrateStore_changes_only_candidates (env : Env) (files : list File)
  (n : Z) (sch : list action) (w : World) (st : state) :
  run env files n sch (init w) = Some st ->
  mig (world st) = mig w /\
  setting_uniqueID (db (world st)) = setting_uniqueID (db w) /\
  forall c,
    map ID (Collection (db (world st)) c) = map ID (Collection (db w) c) /\
    forall g, ~ In (ID g) (map ID files) ->
      (In g (Collection (db (world st)) c) <-> In g (Collection (db w) c)).
Proof.
  assert (G : forall s,
            sched_inv files n s ->
            run env files n sch s = Some st ->
            mig (world st) = mig (world s) /\
            sameOutside (map ID files) (db (world s)) (db (world st))).
  { induction sch as [|a sch IH]; intros s I H; simpl in H.
    - injection H as <-. split; [reflexivity | apply sameOutside_refl].
    - destruct (step env files n a s) as [s1|] eqn:E; [|discriminate].
      destruct (step_catalog env files n a s s1 I E) as [Hm1 Ho1].
      destruct (IH s1 (step_sched_inv env files n a s s1 I E) H)
        as [Hm Ho].
      split; [congruence|].
      exact (sameOutside_trans _ _ _ _ Ho1 Ho). }
  intro H.
  destruct (G (init w) (init_sched_inv files n w) H) as [Hm [Hs Hc]].
  split; [exact Hm|]. split; [exact Hs|]. exact Hc.
Qed.

Lemma MigrateStore_changes_only_candidates_witness :
  mig (world (sample2.reach 1 sample2.to_return)) = mig sample2.ready3 /\
  setting_uniqueID (db (world (sample2.reach 1 sample2.to_return)))
    = setting_uniqueID (db sample2.ready3) /\
  forall c,
    map ID (Collection (db (world (sample2.reach 1 sample2.to_return))) c)
      = map ID (Collection (db sample2.ready3) c) /\
    forall g, ~ In (ID g) (map ID sample2.files3) ->
      (In g (Collection (db (world (sample2.reach 1 sample2.to_return))) c)
       <-> In g (Collection (db sample2.ready3) c)).
Proof.
  apply (MigrateStore_changes_only_candidates (sample.environ None)
           sample2.files3 1 sample2.to_return sample2.ready3).
  vm_compute. reflexivity.
Defined.

(** ** Two more consequences *)

(** The defaults of the worker reach the catalog.  The worker mutates its
    copy of the record before computing the path and writes that copy back:
    for a completed record whose fetch succeeded, the record handed to the
    catalog update has the user id replaced by the literal undefined when it
    was empty, and for Uploads the room id likewise (for Avatars the room id
    is kept); when the push succeeds the update carrying it is attempted. *)
Theorem migrateOne_stores_defaults (env : Env) (file : File) (w : World)
  (src dst : Provider) (lp : string) :
  sourceStore (mig w) = Some src ->
  destinationStore (mig w) = Some dst ->
  Complete file = true ->
  Download src (fileCollectionName (mig w)) file = (lp, None) ->
  exists p f' unset,
    fixFileForUpload (withDefaults (mig w) file) p w = (Ok (f', unset), w) /\
    UserID f' = orUndefined (UserID file) /\
    (storeName (mig w) = "Uploads" -> Rid f' = orUndefined (Rid file)) /\
    (storeName (mig w) <> "Uploads" -> Rid f' = Rid file) /\
    (Upload dst p lp (Type_ file) = None ->
     In (EvUpdateOne (fileCollectionName (mig w)) (ID file) f' unset)
        (trace (snd (migrateOne env file w)))).
Proof.
  intros Hs Hd Hc Hdl.
  destruct (migrateOne_fetched env file w src dst lp Hs Hd Hc Hdl)
    as (p & f' & unset & _ & Hfix & E).
  exists p, f', unset. split; [exact Hfix|].
  pose proof Hfix as Hfix'.
  rewrite (fixFileForUpload_eq _ _ _ _ Hd) in Hfix'. cbv zeta in Hfix'.
  injection Hfix' as Hf' _.
  assert (Hu : UserID f' = UserID (withDefaults (mig w) file)).
  { rewrite <- Hf'.
    destruct (String.eqb (StoreType dst) "AmazonS3");
      [|destruct (String.eqb (StoreType dst) "GoogleCloudStorage")];
      reflexivity. }
  assert (Hr : Rid f' = Rid (withDefaults (mig w) file)).
  { rewrite <- Hf'.
    destruct (String.eqb (StoreType dst) "AmazonS3");
      [|destruct (String.eqb (StoreType dst) "GoogleCloudStorage")];
      reflexivity. }
  assert (Hi : ID f' = ID file).
  { rewrite (fixFileForUpload_ID _ _ _ _ _ _ Hfix). apply withDefaults_ID. }
  split; [rewrite Hu; apply withDefaults_UserID|].
  split; [intro Hn; rewrite Hr; now apply withDefaults_Rid|].
  split.
  - intro Hn. rewrite Hr. unfold withDefaults.
    rewrite (eqb_false_of_neq _ _ Hn), andb_false_r.
    destruct (String.eqb (UserID file) ""); reflexivity.
  - intro Hup. cbv zeta in E. rewrite E, Hup.
    unfold UpdateOne, bind, getM, emit, getDB, putDB, fail. simpl.
    rewrite Hi.
    destruct (updateError env f'); simpl; apply in_or_app; right;
      simpl; auto.
Qed.

Lemma migrateOne_stores_defaults_witness :
  exists p f' unset,
    fixFileForUpload
      (withDefaults
         (mig (sample.ready (Some sample.s3) (Some sample.gcs) false
                 [sample.fb])) sample.fb) p
      (sample.ready (Some sample.s3) (Some sample.gcs) false [sample.fb])
    = (Ok (f', unset),
       sample.ready (Some sample.s3) (Some sample.gcs) false [sample.fb]) /\
    UserID f' = orUndefined (UserID sample.fb) /\
    ("Uploads" = "Uploads" -> Rid f' = orUndefined (Rid sample.fb)) /\
    ("Uploads" <> "Uploads" -> Rid f' = Rid sample.fb) /\
    (Upload sample.gcs p "/tmp/uploads/b" (Type_ sample.fb) = None ->
     In (EvUpdateOne "rocketchat_uploads" (ID sample.fb) f' unset)
        (trace (snd (migrateOne (sample.environ None) sample.fb
                       (sample.ready (Some sample.s3) (Some sample.gcs) false
                          [sample.fb]))))).
Proof.
  apply (migrateOne_stores_defaults (sample.environ None) sample.fb
           (sample.ready (Some sample.s3) (Some sample.gcs) false [sample.fb])
           sample.s3 sample.gcs "/tmp/uploads/b");
    reflexivity.
Defined.

Lemma step_after_return (env : Env) (files : list File) (n : Z) (a : action)
  (s s' : state) (r : option error) :
  pc s = Returned r -> lis s = Exited ->
  step env files n a s = Some s' ->
  pc s' = Returned r /\ lis s' = Exited /\
  exists j, a = Work j.
Proof.
  intros Hp Hl. unfold step. rewrite Hp, Hl.
  destruct (dead s); [discriminate|].
  destruct a as [|j| |j|j]; try discriminate.
  - destruct (nth_error (workers s) j) as [[f| |e|v| |]|]; discriminate.
  - destruct (nth_error (workers s) j) as [[f| |e|v| |]|]; try discriminate.
    destruct (migrateOne env f (world s)) as [x w'].
    intro E; injection E as <-. simpl. eauto.
  - destruct (nth_error (workers s) j) as [[f| |e|v| |]|]; discriminate.
Qed.

(** Errors after the return are lost.  Once [MigrateStore] has returned, the
    error listener has exited; in everything that happens afterwards the only
    moves are workers running their transfers: no error a worker sends is
    ever received, no completion signal either, and the process does not
    panic because of a worker's error. *)
Theorem errors_after_return_are_lost (env : Env) (files : list File)
  (n : Z) (sch sch' : list action) (w : World) (st st' : state)
  (r : option error) :
  run env files n sch (init w) = Some st ->
  pc st = Returned r ->
  run env files n sch' st = Some st' ->
  pc st' = Returned None /\ lis st' = Exited /\
  (forall a, In a sch' -> exists j, a = Work j) /\
  (forall j, step env files n (Report j) st' = None) /\
  (forall j, step env files n (RecvDone j) st' = None).
Proof.
  intros H Hr H'.
  assert (I : drained_one st)
    by (apply (run_drained_one env files n sch (init w));
        [exact Logic.I | exact H]).
  unfold drained_one in I. rewrite Hr in I. destruct I as (-> & Hl & _).
  assert (G : forall s, pc s = Returned None -> lis s = Exited ->
                run env files n sch' s = Some st' ->
                pc st' = Returned None /\ lis st' = Exited /\
                (forall a, In a sch' -> exists j, a = Work j)).
  { clear H' H Hr Hl. induction sch' as [|a sch' IH]; intros s Hp Hx H;
      simpl in H.
    - injection H as <-. repeat split; auto. intros a [].
    - destruct (step env files n a s) as [s1|] eqn:E; [|discriminate].
      destruct (step_after_return env files n a s s1 None Hp Hx E)
        as (Hp1 & Hx1 & Ha).
      destruct (IH s1 Hp1 Hx1 H) as (Hp' & Hx' & Hall).
      repeat split; auto.
      intros b [<-|Hb]; [exact Ha | now apply Hall]. }
  destruct (G st Hr Hl H') as (Hp' & Hx' & Hall).
  repeat split; auto.
  - intro j. unfold step. rewrite Hx'.
    destruct (dead st'); [reflexivity|].
    destruct (nth_error (workers st') j) as [[f| |e|v| |]|]; reflexivity.
  - intro j. unfold step. rewrite Hp'.
    destruct (dead st'); [reflexivity|].
    destruct (nth_error (workers st') j) as [[f| |e|v| |]|]; reflexivity.
Qed.

Lemma errors_after_return_are_lost_witness :
  pc (sample2.lost_reach (sample2.lost_return ++ [Work 1])) = Returned None /\
  lis (sample2.lost_reach (sample2.lost_return ++ [Work 1])) = Exited /\
  (forall a, In a [Work 1] -> exists j, a = Work j) /\
  (forall j,
     step (sample.environ None) sample2.lost_files 5 (Report j)
       (sample2.lost_reach (sample2.lost_return ++ [Work 1])) = None) /\
  (forall j,
     step (sample.environ None) sample2.lost_files 5 (RecvDone j)
       (sample2.lost_reach (sample2.lost_return ++ [Work 1])) = None).
Proof.
  apply (errors_after_return_are_lost (sample.environ None)
           sample2.lost_files 5 sample2.lost_return [Work 1]
           sample2.lost_ready (sample2.lost_reach sample2.lost_return)
           (sample2.lost_reach (sample2.lost_return ++ [Work 1])) None);
    vm_compute; reflexivity.
Defined.

(** In that run the second worker's fetch fails after the return: its error
    stays in its send. *)
Example error_after_return_stays_unsent :
  workers (sample2.lost_reach (sample2.lost_return ++ [Work 1]))
    = [Finished; SendingErr (ErrOther "timeout")].
Proof. vm_compute. reflexivity. Qed.

(** * The result of [MigrateStore], and errors that are never heard *)

(** C2, as amended.  When the setup of [MigrateStore] has succeeded and the
    call returns: no worker's error has been received (the listener was let
    go with [nil]), every candidate's worker has been launched, and the
    result is the [nil] error.  The result is an error value only and
    carries no counts: any two runs that return, return the same value,
    whatever their candidates, limits and schedules, and so whatever number
    of records each migrated or skipped. *)
Theorem C2_result_is_nil_and_carries_no_counts (env env' : Env)
  (files files' : list File) (n n' : Z) (sch sch' : list action)
  (w w' : World) (st st' : state) (r r' : option error) :
  run env files n sch (init w) = Some st ->
  pc st = Returned r ->
  run env' files' n' sch' (init w') = Some st' ->
  pc st' = Returned r' ->
  r = None /\ lis st = Exited /\ launched st = length files /\ r' = r.
Proof.
  intros H Hr H' Hr'.
  assert (I : drained_one st)
    by (apply (run_drained_one env files n sch (init w));
        [exact Logic.I | exact H]).
  assert (I' : drained_one st')
    by (apply (run_drained_one env' files' n' sch' (init w'));
        [exact Logic.I | exact H']).
  destruct (run_sched_inv env files n sch _ _ (init_sched_inv files n w) H)
    as [_ HB].
  unfold drained_one in I, I'. rewrite Hr in I, HB. rewrite Hr' in I'.
  destruct I as (-> & Hl & _). destruct I' as (-> & _ & _).
  destruct HB as [Hlen _].
  repeat split; auto.
Qed.

Lemma C2_witness :
  (None : option error) = None /\
  lis (sample2.single sample.fa) = Exited /\
  launched (sample2.single sample.fa) = length [sample.fa] /\
  (None : option error) = None.
Proof.
  apply (C2_result_is_nil_and_carries_no_counts
           (sample.environ None) (sample.environ None)
           [sample.fa] [sample.fpart] 1 1
           [Main; Main; Main; Work 0; RecvDone 0; Release]
           [Main; Main; Main; Work 0; RecvDone 0; Release]
           (sample.ready (Some sample.s3) (Some sample.gcs) false [sample.fa])
           (sample.ready (Some sample.s3) (Some sample.gcs) false
              [sample.fpart])
           (sample2.single sample.fa) (sample2.single sample.fpart)
           None None);
    vm_compute; reflexivity.
Defined.

(** C2 as stated fails on the counts.  Two runs over one record each, with
    no error and every launched worker completed before the return: the
    first migrates its record, the second skips it (the record is not
    completed).  Both return the same value, [nil]; so no reading of the
    result gives the counts of both runs. *)
Lemma C2_counterexample :
  returned (sample2.single sample.fa) = Some None /\
  returned (sample2.single sample.fpart) = Some None /\
  workers (sample2.single sample.fa) = [Finished] /\
  workers (sample2.single sample.fpart) = [Finished] /\
  lis (sample2.single sample.fa) = Exited /\
  lis (sample2.single sample.fpart) = Exited /\
  migrated (sample2.single sample.fa) = 1 /\
  skipped (sample2.single sample.fa) = 0 /\
  migrated (sample2.single sample.fpart) = 0 /\
  skipped (sample2.single sample.fpart) = 1 /\
  ~ (exists counts : option error -> nat * nat,
       forall f r,
         returned (sample2.single f) = Some r ->
         counts r = (migrated (sample2.single f),
                     skipped (sample2.single f))).
Proof.
  assert (Ha : returned (sample2.single sample.fa) = Some None)
    by (vm_compute; reflexivity).
  assert (Hp : returned (sample2.single sample.fpart) = Some None)
    by (vm_compute; reflexivity).
  assert (Ma : migrated (sample2.single sample.fa) = 1)
    by (vm_compute; reflexivity).
  assert (Sa : skipped (sample2.single sample.fa) = 0)
    by (vm_compute; reflexivity).
  assert (Mp : migrated (sample2.single sample.fpart) = 0)
    by (vm_compute; reflexivity).
  assert (Sp : skipped (sample2.single sample.fpart) = 1)
    by (vm_compute; reflexivity).
  repeat split; try assumption; try (vm_compute; reflexivity).
  intros [counts H].
  pose proof (H sample.fa None Ha) as H1.
  pose proof (H sample.fpart None Hp) as H2.
  rewrite Ma, Sa in H1. rewrite Mp, Sp in H2.
  rewrite H1 in H2. discriminate.
Qed.

(** C3 on the failing input: MAX_CONCURRENCY=5, the skip flag unset, two
    completed records, the fetch of the second failing with an error other
    than not-found.  Both workers are launched; the first one's completion
    signal is received after the loop, the listener is let go with [nil]
    and [MigrateStore] returns [nil]; then the second worker's fetch fails
    and it ends at the send of its error.  Nothing can receive that send: no
    move is enabled, the run was not aborted and has returned success. *)
Theorem C3_fatal_fetch_error_is_lost :
  exists w' st,
    MigrateStore_setup (sample.environ (Some "5"))
      (sample.start (Some sample.s3) (Some sample.gcs) false
         sample2.lost_files)
    = (Ok (sample2.lost_files, 5%Z), w') /\
    skipErrors (mig w') = false /\
    Download sample.s3 (fileCollectionName (mig w')) sample.fbad
      = ("", Some (ErrOther "timeout")) /\
    run (sample.environ (Some "5")) sample2.lost_files 5
      (sample2.lost_return ++ [Work 1]) (init w') = Some st /\
    workers st = [Finished; SendingErr (ErrOther "timeout")] /\
    pc st = Returned None /\
    lis st = Exited /\
    dead st = false /\
    forall a,
      step (sample.environ (Some "5")) sample2.lost_files 5 a st = None.
Proof.
  exists (snd (MigrateStore_setup (sample.environ (Some "5"))
                 (sample.start (Some sample.s3) (Some sample.gcs) false
                    sample2.lost_files))).
  eexists.
  split; [vm_compute; reflexivity|].
  split; [vm_compute; reflexivity|].
  split; [vm_compute; reflexivity|].
  split; [vm_compute; reflexivity|].
  split; [reflexivity|]. split; [reflexivity|]. split; [reflexivity|].
  split; [reflexivity|].
  intros [ |j| |j|j]; try (vm_compute; reflexivity);
    destruct j as [|[|[|j]]]; vm_compute; reflexivity.
Qed.
